(** * ashpy: GAN losses and multi-scale discriminators

    A shallow embedding of [ashpy/losses/gan.py] and
    [ashpy/models/convolutional/discriminators.py].

    The code is glue over TensorFlow: it decides which tensors are combined
    and in which order.  Tensors and the TensorFlow/Keras primitives are
    therefore an interface ([TensorFlow]); every function of the repository
    is written over it, following the Python text branch by branch.
    Python exceptions are values of [result]. *)

From Stdlib Require Import ZArith List String Bool Lia PrimFloat DecimalString.
Import ListNotations.

Local Open Scope string_scope.
Local Open Scope Z_scope.

(* ------------------------------------------------------------------ *)
(** ** Python results: a value or a raised exception *)

Inductive exception : Type :=
| ValueError (msg : string).

Inductive result (A : Type) : Type :=
| Ok (a : A)
| Raise (e : exception).

Arguments Ok {A} a.
Arguments Raise {A} e.

Definition bind {A B} (r : result A) (k : A -> result B) : result B :=
  match r with
  | Ok a => k a
  | Raise e => Raise e
  end.

Notation "x <- r ;; k" := (bind r (fun x => k))
  (at level 61, r at next level, right associativity).
Notation "' pat <- r ;; k" := (bind r (fun x => match x with pat => k end))
  (at level 61, pat pattern, r at next level, right associativity).

Definition raises_ValueError {A} (r : result A) : Prop :=
  exists msg, r = Raise (ValueError msg).

(** Python's [len] on a list. *)
Definition len {A} (l : list A) : nat := List.length l.

(** [str(n)] for a length, as it appears inside an f-string. *)
Definition str_of_len (n : nat) : string :=
  NilZero.string_of_uint (Nat.to_uint n).

(** [range(n)] for a Python int [n]: empty when [n <= 0]. *)
Definition range (n : Z) : list Z :=
  map Z.of_nat (seq 0 (Z.to_nat n)).

(** [enumerate(l)]. *)
Definition enumerate {A} (l : list A) : list (nat * A) :=
  combine (seq 0 (List.length l)) l.

(** [int(a / b)] on Python ints: [/] is true division, which yields the
    double nearest to the quotient, and [int] truncates toward zero.  The
    repository only divides a resolution by a power of two; for
    [|a| <= 2^53] that double is the exact quotient (or a value below one
    in magnitude), so the result is the quotient truncated toward zero. *)
Definition int_truediv (a b : Z) : Z := Z.quot a b.

(* ------------------------------------------------------------------ *)
(** ** The TensorFlow interface

    Everything the repository calls in [tf.*] and [tf.keras.*].  The
    repository never looks inside a tensor, so the type is abstract, and
    the primitives are total functions: errors raised inside TensorFlow
    are not part of the model. *)

(** [tf.losses.Reduction]: its members are the strings below.  The
    [reduction] setters of the repository accept any value. *)
Definition Reduction : Type := string.
Definition AUTO : Reduction := "auto".
Definition NONE : Reduction := "none".
Definition SUM : Reduction := "sum".
Definition SUM_OVER_BATCH_SIZE : Reduction := "sum_over_batch_size".

(** The state of a [tf.losses.BinaryCrossentropy] object. *)
Record BinaryCrossentropy : Type := mkBinaryCrossentropy {
  from_logits : bool;
  label_smoothing : float;
  reduction : Reduction
}.

(** A tensor or a Python list of tensors. *)
Inductive tensors (T : Type) : Type :=
| OneTensor (t : T)
| TensorList (l : list T).

Arguments OneTensor {T} t.
Arguments TensorList {T} l.

Class TensorFlow : Type := {
  tensor : Type;
  (** a Keras layer class, as passed for [non_linearity] *)
  layer_class : Type;
  ones_like : tensor -> tensor;
  zeros_like : tensor -> tensor;
  rank : tensor -> Z;
  (** [tf.expand_dims(t, axis=a)] *)
  expand_dims : tensor -> Z -> tensor;
  (** [tf.reduce_mean(t, axis=a)]; [None] reduces over every axis *)
  reduce_mean : tensor -> option (list Z) -> tensor;
  (** [tf.add_n(ts)] *)
  add_n : list tensor -> tensor;
  (** [tf.abs(t)] *)
  tf_abs : tensor -> tensor;
  (** [x - y], [x + y] and [c * x] for a Python float [c] *)
  tf_sub : tensor -> tensor -> tensor;
  tf_add : tensor -> tensor -> tensor;
  tf_scale : float -> tensor -> tensor;
  (** calling a [tf.losses.BinaryCrossentropy] object on [(y_true, y_pred)] *)
  binary_crossentropy : BinaryCrossentropy -> tensor -> tensor -> tensor;
  (** the layer [tf.keras.layers.AvgPool2D()] applied to a tensor *)
  AvgPool2D : tensor -> tensor;
  (** the layer [keras.layers.Concatenate(axis=-1)] applied to its argument *)
  Concatenate : tensors tensor -> tensor;
  (** iterating over a tensor yields its slices along axis 0 *)
  tensor_iter : tensor -> list tensor;
  (** a Python list given where a tensor is expected is packed into one *)
  tf_stack : list tensor -> tensor
}.

(* ------------------------------------------------------------------ *)
(** ** Keras models as the losses see them *)

Section Models.
Context {TF : TensorFlow}.

(** An element of [model.inputs]: a symbolic tensor for a functional Keras
    model, a plain integer for the discriminators of this repository. *)
Inductive model_input : Type :=
| InputTensor (t : tensor)
| InputInt (z : Z).

(** What is passed to a discriminator. *)
Definition discriminator_inputs : Type := tensors tensor.

(** What a discriminator computes: a tensor, or a list of tensors for a
    multi-scale discriminator. *)
Definition model_output : Type := tensors tensor.

(** The value of a call: with [return_features=True] the pair
    [(output, features)], the output alone otherwise. *)
Definition call_result (out : Type) (return_features : bool) : Type :=
  if return_features then (out * list tensor)%type else out.

(** A [tf.keras.Model]: its [inputs] attribute and
    [model(inputs, training=..., return_features=...)]. *)
Record Model : Type := mkModel {
  inputs : list model_input;
  model_call :
    discriminator_inputs -> bool ->
    forall return_features : bool, result (call_result model_output return_features)
}.

(** [ashpy.contexts.GANContext]; [encoder_model] is [Some] exactly when
    [hasattr(context, "encoder_model")] holds.  The encoder is called as
    [encoder_model(x, training=training)]. *)
Record GANContext : Type := mkGANContext {
  discriminator_model : Model;
  encoder_model : option (tensor -> bool -> tensor)
}.

(** A loss object held in [Executor._fn], called on [(y_true, y_pred)]. *)
Definition loss_fn : Type := tensor -> tensor -> result tensor.

(** [[f(x) for x in xs]] where [f] may raise: the first exception wins. *)
Definition mapM {A B} (f : A -> result B) : list A -> result (list B) :=
  fix go (xs : list A) : result (list B) :=
    match xs with
    | [] => Ok []
    | x :: xs' => y <- f x ;; ys <- go xs' ;; Ok (y :: ys)
    end.

(** Iterating over a model output, as [zip] does. *)
Definition output_iter (o : model_output) : list tensor :=
  match o with
  | TensorList l => l
  | OneTensor t => tensor_iter t
  end.

(** A model output passed to a TensorFlow function. *)
Definition as_tensor (o : model_output) : tensor :=
  match o with
  | OneTensor t => t
  | TensorList l => tf_stack l
  end.

End Models.

(* ------------------------------------------------------------------ *)
(** ** [ashpy/losses/gan.py] *)

Inductive AdversarialLossType : Type :=
| GAN     (* classical gan loss (minmax) *)
| LSGAN.  (* Least Square GAN *)

(** [member.value] *)
Definition value (t : AdversarialLossType) : Z :=
  match t with
  | GAN => 0
  | LSGAN => 1
  end.

Module GANExecutor.
Section GANExecutor.
Context {TF : TensorFlow}.

Definition get_discriminator_inputs
  (context : GANContext) (fake_or_real condition : tensor) (training : bool)
  : result discriminator_inputs :=
  let num_inputs := len (inputs (discriminator_model context)) in
  (* Handle encoder *)
  match encoder_model context with
  | Some encoder =>
      if Nat.eqb num_inputs 2 then
        Ok (TensorList [fake_or_real; encoder fake_or_real training])
      else if Nat.eqb num_inputs 3 then
        Ok (TensorList [fake_or_real; encoder fake_or_real training; condition])
      else
        Raise (ValueError
          ("Context has encoder_model, but generator has only "
             ++ str_of_len num_inputs ++ " inputs")%string)
  | None =>
      if Nat.eqb num_inputs 2 then
        Ok (TensorList [fake_or_real; condition])
      else
        Ok (OneTensor fake_or_real)
  end.

End GANExecutor.
End GANExecutor.

(** The two adversarial base classes.  Their [call] methods carry the
    decorator [@Executor.reduce_loss] of [ashpy/losses/executor.py]; the
    definitions below are the decorated method bodies, which compute the
    loss for each example. *)

Module AdversarialLossG.
Section AdversarialLossG.
Context {TF : TensorFlow}.

Definition call (_fn : loss_fn) (context : GANContext)
  (fake condition : tensor) (training : bool) : result tensor :=
  fake_inputs <- GANExecutor.get_discriminator_inputs context fake condition training ;;
  d_fake <- model_call (discriminator_model context) fake_inputs training false ;;
  (* support for Multiscale discriminator *)
  match d_fake with
  | TensorList d_fake =>
      values <- mapM (fun d_fake_i =>
                  v <- _fn (ones_like d_fake_i) d_fake_i ;;
                  Ok (reduce_mean v (Some [1; 2]))) d_fake ;;
      Ok (add_n values)
  | OneTensor d_fake =>
      value <- _fn (ones_like d_fake) d_fake ;;
      let value :=
        if rank d_fake =? 4 then value
        else expand_dims (expand_dims value (-1)) (-1) in
      Ok (reduce_mean value (Some [1; 2]))
  end.

End AdversarialLossG.
End AdversarialLossG.

Module AdversarialLossD.
Section AdversarialLossD.
Context {TF : TensorFlow}.

Definition call (_fn : loss_fn) (context : GANContext)
  (fake real condition : tensor) (training : bool) : result tensor :=
  fake_inputs <- GANExecutor.get_discriminator_inputs context fake condition training ;;
  real_inputs <- GANExecutor.get_discriminator_inputs context real condition training ;;
  d_fake <- model_call (discriminator_model context) fake_inputs training false ;;
  d_real <- model_call (discriminator_model context) real_inputs training false ;;
  match d_fake with
  | TensorList d_fake =>
      values <- mapM (fun '(d_real_i, d_fake_i) =>
                  v <- _fn d_real_i d_fake_i ;;
                  Ok (reduce_mean v (Some [1; 2])))
                (combine (output_iter d_real) d_fake) ;;
      Ok (add_n values)
  | OneTensor d_fake =>
      value <- _fn (as_tensor d_real) d_fake ;;
      let value :=
        if rank d_fake =? 4 then value
        else expand_dims (expand_dims value (-1)) (-1) in
      Ok (reduce_mean value (Some [1; 2]))
  end.

End AdversarialLossD.
End AdversarialLossD.

(** [GeneratorL1.L1Loss], a [tf.losses.Loss]. *)
Module L1Loss.

Record t : Type := mk { _reduction : Reduction }.

(** the [reduction] property and its setter *)
Definition get_reduction (self : t) : Reduction := _reduction self.
Definition set_reduction (self : t) (value : Reduction) : t :=
  {| _reduction := value |}.

(** [super().__init__()] assigns [self.reduction = AUTO], through the
    setter; the next statement overwrites it. *)
Definition __init__ : t :=
  let self := {| _reduction := AUTO |} in
  set_reduction self SUM_OVER_BATCH_SIZE.

Section L1Loss.
Context {TF : TensorFlow}.

(** For each element the mean of the l1 between x and y *)
Definition call (self : t) (x y : tensor) : result tensor :=
  axis <-
    (if String.eqb (_reduction self) SUM_OVER_BATCH_SIZE then Ok None
     else if String.eqb (_reduction self) NONE then Ok (Some [1; 2; 3])
     else Raise (ValueError "L1Loss: unhandled reduction type")) ;;
  Ok (reduce_mean (tf_abs (tf_sub x y)) axis).

End L1Loss.
End L1Loss.

(** [DiscriminatorMinMax.GANLoss], a [tf.losses.Loss]. *)
Module GANLoss.

Record t : Type := mk {
  _positive_bce : BinaryCrossentropy;
  _negative_bce : BinaryCrossentropy
}.

Definition with_reduction (l : BinaryCrossentropy) (value : Reduction)
  : BinaryCrossentropy :=
  {| from_logits := from_logits l;
     label_smoothing := label_smoothing l;
     reduction := value |}.

(** the [reduction] property and its setter *)
Definition get_reduction (self : t) : Reduction :=
  reduction (_positive_bce self).
Definition set_reduction (self : t) (value : Reduction) : t :=
  {| _positive_bce := with_reduction (_positive_bce self) value;
     _negative_bce := with_reduction (_negative_bce self) value |}.

(** [super().__init__()] assigns [self.reduction = AUTO], through the
    setter. *)
Definition __init__ (from_logits : bool) (label_smoothing : float) : t :=
  let self :=
    {| _positive_bce :=
         {| from_logits := from_logits;
            label_smoothing := label_smoothing;
            reduction := NONE |};
       _negative_bce :=
         {| from_logits := from_logits;
            label_smoothing := 0%float;
            reduction := NONE |} |} in
  set_reduction self AUTO.

Section GANLoss.
Context {TF : TensorFlow}.

(** Play the DiscriminatorMinMax game between the discriminator computed
    in real and the discriminator compute with fake inputs. *)
Definition call (self : t) (d_real d_fake : tensor) : tensor :=
  tf_scale 0.5%float
    (tf_add
       (binary_crossentropy (_positive_bce self) (ones_like d_real) d_real)
       (binary_crossentropy (_negative_bce self) (zeros_like d_fake) d_fake)).

End GANLoss.
End GANLoss.

(** *** Utility functions in order to get the correct loss *)

(** The executor classes of the module, as class objects. *)
Inductive ExecutorClass : Type :=
| GeneratorBCE
| GeneratorLSGAN
| GeneratorL1
| FeatureMatchingLoss
| CategoricalCrossEntropy
| EncoderBCE
| DiscriminatorMinMax
| DiscriminatorLSGAN.

(** A Python value passed as [adversarial_loss_type]. *)
Inductive py_value : Type :=
| PyEnum (m : AdversarialLossType)
| PyInt (z : Z)
| PyBool (b : bool)
| PyStr (s : string)
| PyNone.

Definition AdversarialLossType_eqb (a b : AdversarialLossType) : bool :=
  match a, b with
  | GAN, GAN | LSGAN, LSGAN => true
  | _, _ => false
  end.

(** Python's [==]: [bool] is a subclass of [int] and compares by number;
    a member of a plain [Enum] equals only itself. *)
Definition py_eq (a b : py_value) : bool :=
  match a, b with
  | PyEnum m, PyEnum m' => AdversarialLossType_eqb m m'
  | PyInt z, PyInt z' => z =? z'
  | PyInt z, PyBool b' => z =? Z.b2z b'
  | PyBool b, PyInt z' => Z.b2z b =? z'
  | PyBool b, PyBool b' => Bool.eqb b b'
  | PyStr s, PyStr s' => String.eqb s s'
  | PyNone, PyNone => true
  | _, _ => false
  end.

Definition unsupported_loss_type : exception :=
  ValueError
    "Loss type not supported, the implemented losses are DiscriminatorMinMax or LSGAN".

Definition get_adversarial_loss_discriminator (adversarial_loss_type : py_value)
  : result ExecutorClass :=
  if py_eq adversarial_loss_type (PyEnum GAN)
     || py_eq adversarial_loss_type (PyInt (value GAN))
  then Ok DiscriminatorMinMax
  else if py_eq adversarial_loss_type (PyEnum LSGAN)
          || py_eq adversarial_loss_type (PyInt (value LSGAN))
  then Ok DiscriminatorLSGAN
  else Raise unsupported_loss_type.

Definition get_adversarial_loss_generator (adversarial_loss_type : py_value)
  : result ExecutorClass :=
  if py_eq adversarial_loss_type (PyEnum GAN)
     || py_eq adversarial_loss_type (PyInt (value GAN))
  then Ok GeneratorBCE
  else if py_eq adversarial_loss_type (PyEnum LSGAN)
          || py_eq adversarial_loss_type (PyInt (value LSGAN))
  then Ok GeneratorLSGAN
  else Raise unsupported_loss_type.

(** *** Composite losses *)

Section Executors.
(** A weight: a scalar, a [tf.Tensor] or a callable. *)
Variable weight : Type.

(** Executor objects as [gan.py] builds them: [cls()], [executor * weight]
    and [SumExecutor(executors)]. *)
#[warnings="-register-all"]
Inductive Executor : Type :=
| New (cls : ExecutorClass)
| Mul (e : Executor) (w : weight)
| SumExecutor (executors : list Executor).

(** [Pix2PixLoss.__init__] *)
Definition Pix2PixLoss
  (l1_loss_weight adversarial_loss_weight feature_matching_weight : weight)
  (adversarial_loss_type : py_value) (use_feature_matching_loss : bool)
  : result Executor :=
  adversarial <- get_adversarial_loss_generator adversarial_loss_type ;;
  let executors :=
    [ Mul (New GeneratorL1) l1_loss_weight;
      Mul (New adversarial) adversarial_loss_weight ] in
  let executors :=
    if use_feature_matching_loss
    then (executors ++ [Mul (New FeatureMatchingLoss) feature_matching_weight])%list
    else executors in
  Ok (SumExecutor executors).

(** [Pix2PixLossSemantic.__init__] *)
Definition Pix2PixLossSemantic
  (cross_entropy_weight adversarial_loss_weight feature_matching_weight : weight)
  (adversarial_loss_type : py_value) (use_feature_matching_loss : bool)
  : result Executor :=
  adversarial <- get_adversarial_loss_generator adversarial_loss_type ;;
  let executors :=
    [ Mul (New CategoricalCrossEntropy) cross_entropy_weight;
      Mul (New adversarial) adversarial_loss_weight ] in
  let executors :=
    if use_feature_matching_loss
    then (executors ++ [Mul (New FeatureMatchingLoss) feature_matching_weight])%list
    else executors in
  Ok (SumExecutor executors).

Context {TF : TensorFlow}.

(** Modelled from the spec: [Executor.__call__], [Executor.__mul__] and
    [SumExecutor] of [ashpy/losses/executor.py], which is not among the
    sources.  Executors are "tensor-producing callables" that are "added,
    scaled, and summed" into "weighted sums": a scaled executor yields its
    executor's tensor scaled by the weight, a sum yields the sum of its
    executors' tensors.  [component] is what each class's own [call]
    yields on the arguments of the call, [scale] the product of a weight
    and a tensor. *)
Fixpoint Executor_call (scale : weight -> tensor -> tensor)
  (component : ExecutorClass -> result tensor) (e : Executor)
  : result tensor :=
  match e with
  | New cls => component cls
  | Mul e' w => v <- Executor_call scale component e' ;; Ok (scale w v)
  | SumExecutor executors =>
      vs <- mapM (Executor_call scale component) executors ;;
      Ok (add_n vs)
  end.

End Executors.

Arguments Pix2PixLoss {weight}.
Arguments Pix2PixLossSemantic {weight}.
Arguments Executor_call {weight TF}.
Arguments New {weight} cls.
Arguments Mul {weight} e w.
Arguments SumExecutor {weight} executors.

(* ------------------------------------------------------------------ *)
(** ** [ashpy/models/convolutional/discriminators.py] *)

Module PatchDiscriminator.
Section PatchDiscriminator.
Context {TF : TensorFlow}.

(** The attributes of a [PatchDiscriminator] that the constructor
    arguments determine.  [input_res] and [min_res] are handed to the base
    class as [layer_spec_input_res] and [layer_spec_target_res]; the layer
    list the base class builds from them is inside [super_call]. *)
Record t : Type := mk {
  use_attention : bool;
  normalization_layer : layer_class;
  input_res : Z;
  min_res : Z;
  kernel_size : Z;
  initial_filters : Z;
  filters_cap : Z;
  use_dropout : bool;
  dropout_prob : float;
  non_linearity : layer_class;
  inputs : list model_input
}.

Definition __init__
  (input_res min_res kernel_size initial_filters filters_cap : Z)
  (use_dropout : bool) (dropout_prob : float)
  (non_linearity normalization_layer : layer_class) (use_attention : bool)
  : t :=
  {| use_attention := use_attention;
     normalization_layer := normalization_layer;
     input_res := input_res;
     min_res := min_res;
     kernel_size := kernel_size;
     initial_filters := initial_filters;
     filters_cap := filters_cap;
     use_dropout := use_dropout;
     dropout_prob := dropout_prob;
     non_linearity := non_linearity;
     inputs := [InputInt 1; InputInt 1] |}.

(** [BaseEncoder.call] of [ashpy/models/convolutional/encoders.py], which
    the discriminators inherit and which is not part of this module: it
    runs the layers on a tensor and returns the output, with the features
    when asked for them. *)
Class BaseEncoder : Type := {
  super_call :
    t -> tensor -> bool -> forall return_features : bool,
    call_result tensor return_features
}.

Context {Base : BaseEncoder}.

Definition call (self : t) (inputs : discriminator_inputs)
  (training return_features : bool) : call_result tensor return_features :=
  super_call self (Concatenate inputs) training return_features.

(** The single tensor of a [PatchDiscriminator] as a model output. *)
Definition wrap_output (return_features : bool)
  : call_result tensor return_features ->
    call_result model_output return_features :=
  match return_features with
  | true => fun r => (OneTensor (fst r), snd r)
  | false => fun r => OneTensor r
  end.

(** A [PatchDiscriminator] is a Keras model. *)
Definition as_model (self : t) : Model :=
  mkModel (inputs self)
    (fun i training return_features =>
       Ok (wrap_output return_features (call self i training return_features))).

End PatchDiscriminator.
End PatchDiscriminator.

Module MultiScaleDiscriminator.
Section MultiScaleDiscriminator.
Context {TF : TensorFlow}.

Record t : Type := mk {
  n_discriminators : Z;
  input_res : Z;
  min_res : Z;
  kernel_size : Z;
  initial_filters : Z;
  filters_cap : Z;
  dropout_prob : float;
  non_linearity : layer_class;
  use_dropout : bool;
  use_attention : bool;
  normalization_layer : layer_class;
  discriminators : list PatchDiscriminator.t;
  inputs : list model_input
}.

Definition build_discriminator (self : t) (input_res : Z)
  : PatchDiscriminator.t :=
  PatchDiscriminator.__init__
    input_res
    (min_res self)
    (kernel_size self)
    (initial_filters self)
    (filters_cap self)
    (use_dropout self)
    (dropout_prob self)
    (non_linearity self)
    (normalization_layer self)
    (use_attention self).

(** [self.discriminators.append(d)] *)
Definition append_discriminator (self : t) (d : PatchDiscriminator.t) : t :=
  {| n_discriminators := n_discriminators self;
     input_res := input_res self;
     min_res := min_res self;
     kernel_size := kernel_size self;
     initial_filters := initial_filters self;
     filters_cap := filters_cap self;
     dropout_prob := dropout_prob self;
     non_linearity := non_linearity self;
     use_dropout := use_dropout self;
     use_attention := use_attention self;
     normalization_layer := normalization_layer self;
     discriminators := (discriminators self ++ [d])%list;
     inputs := inputs self |}.

(** [self.inputs = value] *)
Definition set_inputs (self : t) (value : list model_input) : t :=
  {| n_discriminators := n_discriminators self;
     input_res := input_res self;
     min_res := min_res self;
     kernel_size := kernel_size self;
     initial_filters := initial_filters self;
     filters_cap := filters_cap self;
     dropout_prob := dropout_prob self;
     non_linearity := non_linearity self;
     use_dropout := use_dropout self;
     use_attention := use_attention self;
     normalization_layer := normalization_layer self;
     discriminators := discriminators self;
     inputs := value |}.

Definition __init__
  (input_res min_res kernel_size initial_filters filters_cap : Z)
  (use_dropout : bool) (dropout_prob : float)
  (non_linearity normalization_layer : layer_class) (use_attention : bool)
  (n_discriminators : Z) : t :=
  let self :=
    {| n_discriminators := n_discriminators;
       input_res := input_res;
       min_res := min_res;
       kernel_size := kernel_size;
       initial_filters := initial_filters;
       filters_cap := filters_cap;
       dropout_prob := dropout_prob;
       non_linearity := non_linearity;
       use_dropout := use_dropout;
       use_attention := use_attention;
       normalization_layer := normalization_layer;
       discriminators := [];
       inputs := [] |} in
  (* instantiate the discriminators *)
  let self :=
    fold_left
      (fun self i =>
         append_discriminator self
           (build_discriminator self (int_truediv input_res (2 ^ i))))
      (range (MultiScaleDiscriminator.n_discriminators self)) self in
  (* hack in order to accept two inputs *)
  set_inputs self [InputInt 1; InputInt 1].

Context {Base : PatchDiscriminator.BaseEncoder}.

(** [xs, condition = inputs] *)
Definition unpack_inputs (inputs : discriminator_inputs)
  : result (tensor * tensor) :=
  match output_iter inputs with
  | [xs; condition] => Ok (xs, condition)
  | [] => Raise (ValueError "not enough values to unpack (expected 2, got 0)")
  | [_] => Raise (ValueError "not enough values to unpack (expected 2, got 1)")
  | _ => Raise (ValueError "too many values to unpack (expected 2)")
  end.

(** The variables of the loop of [call]. *)
Record loop_state : Type := mk_state {
  outs : list tensor;
  features : list tensor;
  x_i : tensor;
  condition_i : tensor
}.

(** One iteration of [for i, d in enumerate(self.discriminators)]. *)
Definition loop_body (self : t) (training : bool)
  (st : loop_state) (id : nat * PatchDiscriminator.t) : loop_state :=
  let '(i, d) := id in
  (* compute value of the i-th discriminator *)
  let '(out, feat) :=
    PatchDiscriminator.call d (TensorList [x_i st; condition_i st]) training true in
  (* append output and features *)
  let outs := (outs st ++ [out])%list in
  let features := (features st ++ feat)%list in
  (* reduce input size *)
  if negb (Z.of_nat i =? Z.of_nat (len (discriminators self)) - 1)
  then mk_state outs features (AvgPool2D (x_i st)) (AvgPool2D (condition_i st))
  else mk_state outs features (x_i st) (condition_i st).

Definition call (self : t) (inputs : discriminator_inputs)
  (training return_features : bool)
  : result (call_result model_output return_features) :=
  '(xs, condition) <- unpack_inputs inputs ;;
  let st :=
    fold_left (loop_body self training)
      (enumerate (discriminators self))
      (mk_state [] [] xs condition) in
  (* handle output values *)
  match return_features as b return result (call_result model_output b) with
  | true => Ok (TensorList (outs st), features st)
  | false => Ok (TensorList (outs st))
  end.

(** A [MultiScaleDiscriminator] is a Keras model. *)
Definition as_model (self : t) : Model :=
  mkModel (inputs self) (call self).

End MultiScaleDiscriminator.
End MultiScaleDiscriminator.

(* ------------------------------------------------------------------ *)
(** ** The scales of a multi-scale discriminator, stated directly *)

Section Pyramid.
Context {TF : TensorFlow} {Base : PatchDiscriminator.BaseEncoder}.

(** What each discriminator of a list returns when the first one sees
    [(x, c)] and each later one sees the inputs of its predecessor pooled
    once more. *)
Fixpoint pyramid (training : bool) (ds : list PatchDiscriminator.t)
  (x c : tensor) : list (tensor * list tensor) :=
  match ds with
  | [] => []
  | d :: ds' =>
      PatchDiscriminator.call d (TensorList [x; c]) training true
      :: pyramid training ds' (AvgPool2D x) (AvgPool2D c)
  end.

End Pyramid.

(* ------------------------------------------------------------------ *)
(** ** A symbolic TensorFlow

    Tensors as the terms that built them: an implementation of the
    interface on which every function above can be run and its result
    read off. *)

Module Symbolic.

#[warnings="-register-all"]
Inductive sym : Type :=
| Sym (name : string) (rank : Z)
| Op (op : string) (args : list sym)
| AxisOp (op : string) (axis : option (list Z)) (x : sym)
| Scale (c : float) (x : sym)
| Bce (l : BinaryCrossentropy) (y_true y_pred : sym).

Fixpoint sym_rank (t : sym) : Z :=
  match t with
  | Sym _ r => r
  | Op _ args =>
      match args with
      | a :: _ => sym_rank a
      | [] => 0
      end
  | AxisOp _ None _ => 0
  | AxisOp op (Some axes) x =>
      if String.eqb op "expand_dims"
      then sym_rank x + Z.of_nat (List.length axes)
      else sym_rank x - Z.of_nat (List.length axes)
  | Scale _ x => sym_rank x
  | Bce _ _ y_pred => sym_rank y_pred - 1
  end.

Definition sym_tensors (i : tensors sym) : list sym :=
  match i with
  | OneTensor t => [t]
  | TensorList l => l
  end.

Definition TF : TensorFlow :=
  {| tensor := sym;
     layer_class := string;
     ones_like := fun t => Op "ones_like" [t];
     zeros_like := fun t => Op "zeros_like" [t];
     rank := sym_rank;
     expand_dims := fun t a => AxisOp "expand_dims" (Some [a]) t;
     reduce_mean := fun t a => AxisOp "reduce_mean" a t;
     add_n := Op "add_n";
     tf_abs := fun t => Op "abs" [t];
     tf_sub := fun x y => Op "sub" [x; y];
     tf_add := fun x y => Op "add" [x; y];
     tf_scale := Scale;
     binary_crossentropy := Bce;
     AvgPool2D := fun t => Op "AvgPool2D" [t];
     Concatenate := fun i => Op "Concatenate" (sym_tensors i);
     tensor_iter := fun t => [Op "unstack" [t]];
     tf_stack := Op "stack" |}.

(** A base encoder whose output and single feature name the resolution of
    the discriminator that ran. *)
Definition Base : @PatchDiscriminator.BaseEncoder TF :=
  {| PatchDiscriminator.super_call := fun self x training return_features =>
       let out :=
         Op "D" [Sym "res" (@PatchDiscriminator.input_res TF self); x] in
       match return_features as b return @call_result TF sym b with
       | true => (out, [Op "feature" [out]])
       | false => out
       end |}.

(** A loss function that records its arguments. *)
Definition loss : @loss_fn TF :=
  fun y_true y_pred => Ok (Op "loss" [y_true; y_pred]).

Definition fake : sym := Sym "fake" 4.
Definition real : sym := Sym "real" 4.
Definition condition : sym := Sym "condition" 4.

(** A discriminator declaring [n] inputs that returns one tensor of rank
    [r]. *)
Definition plain_model (n : nat) (r : Z) : @Model TF :=
  @mkModel TF (repeat (@InputInt TF 1) n)
    (fun i training return_features =>
       let out := Op "D" (Sym "out" r :: sym_tensors i) in
       Ok (match return_features as b
                 return @call_result TF (tensors sym) b with
           | true => (OneTensor out, [])
           | false => OneTensor out
           end)).

Definition encoder : sym -> bool -> sym := fun x _ => Op "E" [x].

(** A GAN context around [plain_model n r]. *)
Definition context (n : nat) (r : Z) (enc : option (sym -> bool -> sym))
  : @GANContext TF :=
  @mkGANContext TF (plain_model n r) enc.

Definition patch_discriminator (input_res : Z) : @PatchDiscriminator.t TF :=
  @PatchDiscriminator.__init__ TF
    input_res 16 4 64 512 true 0.25%float "LeakyReLU" "InstanceNormalization" false.

Definition multiscale (n : Z) : @MultiScaleDiscriminator.t TF :=
  @MultiScaleDiscriminator.__init__ TF
    256 16 4 64 512 true 0.25%float "LeakyReLU" "InstanceNormalization" false n.

End Symbolic.

(* ------------------------------------------------------------------ *)
(** ** The other executors of [ashpy/losses/gan.py]

    As for the adversarial base classes, the definitions are the bodies of
    the [call] methods under their [@Executor.reduce_loss] decorator. *)

Module GeneratorL1Loss.
Section GeneratorL1Loss.
Context {TF : TensorFlow}.

(** [GeneratorL1.call] *)
Definition call (_fn : loss_fn) (context : GANContext) (fake real : tensor)
  : result tensor :=
  mae <- _fn fake real ;;
  Ok mae.

End GeneratorL1Loss.
End GeneratorL1Loss.

Module FeatureMatching.
Section FeatureMatching.
Context {TF : TensorFlow}.

(** [FeatureMatchingLoss.call] *)
Definition call (_fn : loss_fn) (context : GANContext)
  (fake real condition : tensor) (training : bool) : result tensor :=
  fake_inputs <- GANExecutor.get_discriminator_inputs context fake condition training ;;
  real_inputs <- GANExecutor.get_discriminator_inputs context real condition training ;;
  '(_, features_fake) <-
      model_call (discriminator_model context) fake_inputs training true ;;
  '(_, features_real) <-
      model_call (discriminator_model context) real_inputs training true ;;
  (* for each feature the L1 between the real and the fake *)
  feature_loss <- mapM (fun '(feat_real_i, feat_fake_i) =>
                          _fn feat_real_i feat_fake_i)
                    (combine features_real features_fake) ;;
  Ok (add_n feature_loss).

End FeatureMatching.
End FeatureMatching.

Module CategoricalCrossEntropyLoss.
Section CategoricalCrossEntropyLoss.
Context {TF : TensorFlow}.

(** [CategoricalCrossEntropy.call] *)
Definition call (_fn : loss_fn) (context : GANContext) (fake real : tensor)
  : result tensor :=
  v <- _fn real fake ;;
  Ok (reduce_mean v (Some [1; 2])).

End CategoricalCrossEntropyLoss.
End CategoricalCrossEntropyLoss.

(** Reading an attribute an object may lack: the value, or Python's
    [AttributeError] for the attribute's name. *)
Inductive attribute (A : Type) : Type :=
| Found (a : A)
| AttributeError (name : string).

Arguments Found {A} a.
Arguments AttributeError {A} name.

Module EncoderBCELoss.
Section EncoderBCELoss.
Context {TF : TensorFlow}.

(** [EncoderBCE.call]: [context.encoder_model] is read without a
    [hasattr] test. *)
Definition call (_fn : loss_fn) (context : GANContext)
  (real : tensor) (training : bool) : attribute (result tensor) :=
  match encoder_model context with
  | None => AttributeError "encoder_model"
  | Some encoder_model =>
      let encode := encoder_model real training in
      Found
        (d_real <- model_call (discriminator_model context)
                     (TensorList [real; encode]) training false ;;
         _fn (zeros_like (as_tensor d_real)) (as_tensor d_real))
  end.

End EncoderBCELoss.
End EncoderBCELoss.

(** [tf.keras.losses.MeanSquaredError] objects called on
    [(y_true, y_pred)]. *)
Class KerasMeanSquaredError {TF : TensorFlow} : Type := {
  mean_squared_error : Reduction -> tensor -> tensor -> tensor
}.

(** [DiscriminatorLSGAN.LeastSquareLoss], a [tf.losses.Loss]; each of its
    two [MeanSquaredError] objects is its [reduction]. *)
Module LeastSquareLoss.

Record t : Type := mk {
  _positive_mse : Reduction;
  _negative_mse : Reduction
}.

(** the [reduction] property and its setter *)
Definition get_reduction (self : t) : Reduction := _positive_mse self.
Definition set_reduction (self : t) (value : Reduction) : t :=
  {| _positive_mse := value; _negative_mse := value |}.

(** [super().__init__()] assigns [self.reduction = AUTO], through the
    setter. *)
Definition __init__ : t :=
  let self := {| _positive_mse := NONE; _negative_mse := NONE |} in
  set_reduction self AUTO.

Section LeastSquareLoss.
Context {TF : TensorFlow} {MSE : KerasMeanSquaredError}.

Definition call (self : t) (d_real d_fake : tensor) : tensor :=
  tf_scale 0.5%float
    (tf_add
       (mean_squared_error (_positive_mse self) (ones_like d_real) d_real)
       (mean_squared_error (_negative_mse self) (zeros_like d_fake) d_fake)).

End LeastSquareLoss.
End LeastSquareLoss.

(* ------------------------------------------------------------------ *)
(** ** The layers of a [PatchDiscriminator] *)

Module PatchLayers.
Section PatchLayers.
Context {TF : TensorFlow}.

(** [tf.random_normal_initializer(mean, stddev)] *)
Record initializer : Type := random_normal_initializer {
  mean : float;
  stddev : float
}.

(** The [strides] argument of a convolution: an int or a pair. *)
Inductive conv_strides : Type :=
| Stride (s : Z)
| Strides (h w : Z).

(** The Keras layers the discriminator is made of.  [LayerOf cls] is
    [cls()] for a layer class handed to the constructor. *)
Inductive layer : Type :=
| ZeroPadding2D
| Conv2D (filters kernel_size : Z) (strides : conv_strides) (padding : string)
         (kernel_initializer : initializer) (use_bias : bool)
| LayerOf (cls : layer_class)
| Dropout (rate : float)
| Attention (filters : Z).

(** The attributes the two methods assign. *)
Record state : Type := mk_state {
  model_layers : list layer;
  layer_count : Z
}.

#[warnings="-inexact-float"]
Definition initializer_0_002 : initializer :=
  random_normal_initializer 0.0%float 0.02%float.

(** [self.model_layers.append(l)] *)
Definition append (st : state) (l : layer) : state :=
  mk_state (model_layers st ++ [l])%list (layer_count st).

(** [PatchDiscriminator._add_final_block]; [output_shape] is a shape or
    [None]. *)
Definition _add_final_block (self : PatchDiscriminator.t) (st : state)
  (output_shape : option (list Z)) : state :=
  let initializer := initializer_0_002 in
  (* last layer mapping to one channel with Linear activation *)
  let st := append st ZeroPadding2D in
  let st :=
    append st
      (Conv2D 512 (PatchDiscriminator.kernel_size self) (Stride 1) "valid"
         initializer false) in
  let st := append st (LayerOf (PatchDiscriminator.normalization_layer self)) in
  let st := append st (LayerOf (PatchDiscriminator.non_linearity self)) in
  let st := append st ZeroPadding2D in
  append st
    (Conv2D 1 (PatchDiscriminator.kernel_size self) (Stride 1) "valid"
       initializer true).

(** [PatchDiscriminator._add_building_block] *)
Definition _add_building_block (self : PatchDiscriminator.t) (st : state)
  (filters : Z) (use_bn : bool) : state :=
  let initializer := initializer_0_002 in
  let st :=
    mk_state
      (model_layers st
       ++ [Conv2D filters (PatchDiscriminator.kernel_size self) (Strides 2 2)
             "same" initializer true])%list
      (layer_count st) in
  let st :=
    if (1 <? len (model_layers st))%nat
    then append st (LayerOf (PatchDiscriminator.normalization_layer self))
    else st in
  let st :=
    if PatchDiscriminator.use_dropout self
    then append st (Dropout (PatchDiscriminator.dropout_prob self))
    else st in
  let st := append st (LayerOf (PatchDiscriminator.non_linearity self)) in
  let st :=
    if (layer_count st =? 2) && PatchDiscriminator.use_attention self
    then append st (Attention filters)
    else st in
  mk_state (model_layers st) (layer_count st + 1).

(** A call of one of the two methods. *)
Inductive method_call : Type :=
| AddBuildingBlock (filters : Z) (use_bn : bool)
| AddFinalBlock (output_shape : option (list Z)).

Definition run_call (self : PatchDiscriminator.t) (st : state)
  (c : method_call) : state :=
  match c with
  | AddBuildingBlock filters use_bn => _add_building_block self st filters use_bn
  | AddFinalBlock output_shape => _add_final_block self st output_shape
  end.

(** A sequence of calls, in order. *)
Definition run_calls (self : PatchDiscriminator.t) (st : state)
  (calls : list method_call) : state :=
  fold_left (run_call self) calls st.

Definition is_attention (l : layer) : bool :=
  match l with
  | Attention _ => true
  | _ => false
  end.

(** The [filters] arguments of the building-block calls of a sequence. *)
Fixpoint block_filters (calls : list method_call) : list Z :=
  match calls with
  | [] => []
  | AddBuildingBlock filters _ :: calls' => filters :: block_filters calls'
  | AddFinalBlock _ :: calls' => block_filters calls'
  end.

(** The layers of one building block, stated directly: [first] tells
    whether the block is added to an empty layer list, [count] is
    [layer_count] on entry. *)
Definition block_layers (self : PatchDiscriminator.t) (first : bool)
  (count filters : Z) : list layer :=
  ([Conv2D filters (PatchDiscriminator.kernel_size self) (Strides 2 2) "same"
      initializer_0_002 true]
   ++ (if first then []
       else [LayerOf (PatchDiscriminator.normalization_layer self)])
   ++ (if PatchDiscriminator.use_dropout self
       then [Dropout (PatchDiscriminator.dropout_prob self)] else [])
   ++ [LayerOf (PatchDiscriminator.non_linearity self)]
   ++ (if (count =? 2) && PatchDiscriminator.use_attention self
       then [Attention filters] else []))%list.

(** The layers of the final block, stated directly. *)
Definition final_layers (self : PatchDiscriminator.t) : list layer :=
  [ZeroPadding2D;
   Conv2D 512 (PatchDiscriminator.kernel_size self) (Stride 1) "valid"
     initializer_0_002 false;
   LayerOf (PatchDiscriminator.normalization_layer self);
   LayerOf (PatchDiscriminator.non_linearity self);
   ZeroPadding2D;
   Conv2D 1 (PatchDiscriminator.kernel_size self) (Stride 1) "valid"
     initializer_0_002 true].

End PatchLayers.
End PatchLayers.

(* ------------------------------------------------------------------ *)
(** ** Constructor calls as the interpreter runs them

    The records built by [PatchDiscriminator.__init__] and
    [MultiScaleDiscriminator.__init__] above are the attributes a
    constructor call leaves behind when it returns.  The calls themselves
    can raise: [int(input_res / (2 ** i))] goes through a double, and
    [PatchDiscriminator.__init__] calls [super().__init__], the
    constructor of [BaseEncoder]. *)

(** The outcome of a call that may raise an exception of any class,
    named by its class. *)
Inductive outcome (A : Type) : Type :=
| Returned (a : A)
| Raised (error : string).

Arguments Returned {A} a.
Arguments Raised {A} error.

Definition and_then {A B} (o : outcome A) (k : A -> outcome B) : outcome B :=
  match o with
  | Returned a => k a
  | Raised error => Raised error
  end.

(** A finite Python float, [mantissa * 2 ** exponent]. *)
Record double : Type := mk_double {
  mantissa : Z;
  exponent : Z
}.

(** The integer nearest to [n / d], ties to the even one ([0 <= n],
    [0 < d]). *)
Definition round_half_even (n d : Z) : Z :=
  let q := n / d in
  let r := n mod d in
  if 2 * r <? d then q
  else if d <? 2 * r then q + 1
  else if Z.even q then q else q + 1.

(** The [k] with [2 ** k <= p / q < 2 ** (k + 1)] ([0 < p], [0 < q]). *)
Definition quotient_exponent (p q : Z) : Z :=
  let k := Z.log2 p - Z.log2 q in
  if (if 0 <=? k then q * 2 ^ k <=? p else q <=? p * 2 ^ (- k))
  then k else k - 1.

(** [p / q] rounded to the nearest double: 53 bits of mantissa, exponents
    from -1074. *)
Definition round_to_double (p q : Z) : double :=
  let e := Z.max (quotient_exponent p q - 52) (-1074) in
  let m :=
    if 0 <=? e then round_half_even p (q * 2 ^ e)
    else round_half_even (p * 2 ^ (- e)) q in
  mk_double m e.

(** [a / b] on Python ints: the quotient correctly rounded to a double. *)
Definition py_truediv (a b : Z) : outcome double :=
  if b =? 0 then Raised "ZeroDivisionError"
  else if a =? 0 then Returned (mk_double 0 0)
  else
    let x := round_to_double (Z.abs a) (Z.abs b) in
    if (0 <? mantissa x) && (1024 <=? Z.log2 (mantissa x) + exponent x)
    then Raised "OverflowError"
    else Returned (mk_double (Z.sgn a * Z.sgn b * mantissa x) (exponent x)).

(** [int(x)] on a finite float: truncation toward zero. *)
Definition py_int (x : double) : Z :=
  if 0 <=? exponent x then mantissa x * 2 ^ exponent x
  else Z.quot (mantissa x) (2 ^ (- exponent x)).

(** [int(a / b)] *)
Definition int_of_truediv (a b : Z) : outcome Z :=
  and_then (py_truediv a b) (fun x => Returned (py_int x)).

Module Construct.
Section Construct.
Context {TF : TensorFlow}.

(** [BaseEncoder.__init__] of [ashpy/models/convolutional/encoders.py],
    which [PatchDiscriminator.__init__] calls and which is not part of
    this module: it returns or raises.  Its arguments are, in this order,
    the attributes [use_attention] and [normalization_layer] assigned to
    [self] before the call, then [layer_spec_input_res],
    [layer_spec_target_res], [kernel_size], [initial_filters],
    [filters_cap], [use_dropout], [dropout_prob] and [non_linearity]. *)
Class BaseEncoderInit : Type := {
  super_init :
    bool -> layer_class -> Z -> Z -> Z -> Z -> Z -> bool -> float ->
    layer_class -> outcome unit
}.

Context {Init : BaseEncoderInit}.

(** The call [PatchDiscriminator(...)]. *)
Definition new_PatchDiscriminator
  (input_res min_res kernel_size initial_filters filters_cap : Z)
  (use_dropout : bool) (dropout_prob : float)
  (non_linearity normalization_layer : layer_class) (use_attention : bool)
  : outcome PatchDiscriminator.t :=
  and_then
    (super_init use_attention normalization_layer input_res min_res
       kernel_size initial_filters filters_cap use_dropout dropout_prob
       non_linearity)
    (fun _ =>
       Returned
         (PatchDiscriminator.__init__ input_res min_res kernel_size
            initial_filters filters_cap use_dropout dropout_prob
            non_linearity normalization_layer use_attention)).

(** [MultiScaleDiscriminator.build_discriminator] *)
Definition build_discriminator (self : MultiScaleDiscriminator.t)
  (input_res : Z) : outcome PatchDiscriminator.t :=
  new_PatchDiscriminator
    input_res
    (MultiScaleDiscriminator.min_res self)
    (MultiScaleDiscriminator.kernel_size self)
    (MultiScaleDiscriminator.initial_filters self)
    (MultiScaleDiscriminator.filters_cap self)
    (MultiScaleDiscriminator.use_dropout self)
    (MultiScaleDiscriminator.dropout_prob self)
    (MultiScaleDiscriminator.non_linearity self)
    (MultiScaleDiscriminator.normalization_layer self)
    (MultiScaleDiscriminator.use_attention self).

(** One iteration of [for i in range(self.n_discriminators)]. *)
Definition build_scale (input_res : Z)
  (self : outcome MultiScaleDiscriminator.t) (i : Z)
  : outcome MultiScaleDiscriminator.t :=
  and_then self (fun self =>
  and_then (int_of_truediv input_res (2 ^ i)) (fun res =>
  and_then (build_discriminator self res) (fun d =>
  Returned (MultiScaleDiscriminator.append_discriminator self d)))).

(** The call [MultiScaleDiscriminator(...)]. *)
Definition new_MultiScaleDiscriminator
  (input_res min_res kernel_size initial_filters filters_cap : Z)
  (use_dropout : bool) (dropout_prob : float)
  (non_linearity normalization_layer : layer_class) (use_attention : bool)
  (n_discriminators : Z) : outcome MultiScaleDiscriminator.t :=
  let self :=
    MultiScaleDiscriminator.mk n_discriminators input_res min_res kernel_size
      initial_filters filters_cap dropout_prob non_linearity use_dropout
      use_attention normalization_layer [] [] in
  (* instantiate the discriminators *)
  and_then
    (fold_left (build_scale input_res)
       (range (MultiScaleDiscriminator.n_discriminators self))
       (Returned self))
    (fun self =>
       (* hack in order to accept two inputs *)
       Returned
         (MultiScaleDiscriminator.set_inputs self [InputInt 1; InputInt 1])).

(** What scale [i] is built from when its construction returns: the
    resolution [int(input_res / (2 ** i))] and the hyper-parameters of
    [self]. *)
Definition built_scale (input_res : Z) (self : MultiScaleDiscriminator.t)
  (i : Z) (d : PatchDiscriminator.t) : Prop :=
  exists res : Z,
    int_of_truediv input_res (2 ^ i) = Returned res
    /\ build_discriminator self res = Returned d
    /\ d = MultiScaleDiscriminator.build_discriminator self res.

End Construct.
End Construct.

(** A base constructor on the symbolic tensors that rejects resolutions
    that are not positive. *)
Definition Symbolic_Init : @Construct.BaseEncoderInit Symbolic.TF :=
  @Construct.Build_BaseEncoderInit Symbolic.TF
    (fun _ _ input_res _ _ _ _ _ _ _ =>
       if 0 <? input_res then Returned tt else Raised "ValueError").

(** Mean squared errors on the symbolic tensors. *)
Definition Symbolic_MSE : @KerasMeanSquaredError Symbolic.TF :=
  @Build_KerasMeanSquaredError Symbolic.TF
    (fun r (y_true y_pred : Symbolic.sym) =>
       Symbolic.Op ("mse:" ++ r)%string [y_true; y_pred]).

(* ================================================================== *)
(** * Properties *)

(** ** The functions run on the symbolic tensors *)

Module Examples.
Import Symbolic.

Example resolutions_of_four_scales :
  map (@PatchDiscriminator.input_res TF)
    (@MultiScaleDiscriminator.discriminators TF (multiscale 4))
  = [256; 128; 64; 32].
Proof. reflexivity. Qed.

Example resolution_truncates :
  int_truediv 100 (2 ^ 3) = 12 /\ int_truediv (-3) (2 ^ 1) = -1.
Proof. split; reflexivity. Qed.

Example negative_count_builds_nothing :
  @MultiScaleDiscriminator.discriminators TF (multiscale (-1)) = [].
Proof. reflexivity. Qed.

Example two_scales_with_features :
  @MultiScaleDiscriminator.call TF Base (multiscale 2)
    (TensorList [fake; condition]) true true
  = Ok (TensorList
          [Op "D" [Sym "res" 256; Op "Concatenate" [fake; condition]];
           Op "D" [Sym "res" 128;
                   Op "Concatenate"
                     [Op "AvgPool2D" [fake]; Op "AvgPool2D" [condition]]]],
        [Op "feature"
           [Op "D" [Sym "res" 256; Op "Concatenate" [fake; condition]]];
         Op "feature"
           [Op "D" [Sym "res" 128;
                    Op "Concatenate"
                      [Op "AvgPool2D" [fake]; Op "AvgPool2D" [condition]]]]]).
Proof. reflexivity. Qed.

Example one_input_cannot_be_unpacked :
  @MultiScaleDiscriminator.call TF Base (multiscale 2)
    (TensorList [fake]) true false
  = Raise (ValueError "not enough values to unpack (expected 2, got 1)").
Proof. reflexivity. Qed.

Example encoder_with_one_input_raises :
  @GANExecutor.get_discriminator_inputs TF
    (context 1 4 (Some encoder)) fake condition true
  = Raise (ValueError
             "Context has encoder_model, but generator has only 1 inputs").
Proof. reflexivity. Qed.

Example unconditioned_discriminator :
  @GANExecutor.get_discriminator_inputs TF (context 1 4 None) fake condition true
  = Ok (OneTensor fake).
Proof. reflexivity. Qed.

Example discriminator_loss_over_two_scales :
  @AdversarialLossD.call TF loss
    (@mkGANContext TF (@MultiScaleDiscriminator.as_model TF Base (multiscale 2)) None)
    fake real condition true
  = Ok (Op "add_n"
          [AxisOp "reduce_mean" (Some [1; 2])
             (Op "loss"
                [Op "D" [Sym "res" 256; Op "Concatenate" [real; condition]];
                 Op "D" [Sym "res" 256; Op "Concatenate" [fake; condition]]]);
           AxisOp "reduce_mean" (Some [1; 2])
             (Op "loss"
                [Op "D" [Sym "res" 128;
                         Op "Concatenate"
                           [Op "AvgPool2D" [real]; Op "AvgPool2D" [condition]]];
                 Op "D" [Sym "res" 128;
                         Op "Concatenate"
                           [Op "AvgPool2D" [fake]; Op "AvgPool2D" [condition]]]])]).
Proof. reflexivity. Qed.

Example generator_loss_rank_four :
  @AdversarialLossG.call TF loss (context 2 4 None) fake condition true
  = Ok (AxisOp "reduce_mean" (Some [1; 2])
          (Op "loss"
             [Op "ones_like" [Op "D" [Sym "out" 4; fake; condition]];
              Op "D" [Sym "out" 4; fake; condition]])).
Proof. reflexivity. Qed.

Example loss_type_by_value :
  get_adversarial_loss_generator (PyInt 1) = Ok GeneratorLSGAN
  /\ get_adversarial_loss_generator (PyBool false) = Ok GeneratorBCE
  /\ get_adversarial_loss_discriminator (PyEnum GAN) = Ok DiscriminatorMinMax
  /\ get_adversarial_loss_discriminator (PyInt 2) = Raise unsupported_loss_type
  /\ get_adversarial_loss_generator (PyStr "GAN") = Raise unsupported_loss_type.
Proof. repeat split. Qed.

Example pix2pix_default :
  Pix2PixLoss 100%float 1%float 10%float (PyEnum GAN) false
  = Ok (SumExecutor [Mul (New GeneratorL1) 100%float;
                     Mul (New GeneratorBCE) 1%float]).
Proof. reflexivity. Qed.

Example pix2pix_unknown_loss_type :
  Pix2PixLossSemantic 100%float 1%float 10%float (PyInt 7) true
  = Raise unsupported_loss_type.
Proof. reflexivity. Qed.

Example pix2pix_called :
  @Executor_call float TF Scale
    (fun cls => match cls with
                | GeneratorL1 => Ok (Sym "l1" 1)
                | GeneratorLSGAN => Ok (Sym "lsgan" 1)
                | FeatureMatchingLoss => Ok (Sym "fm" 1)
                | _ => Raise (ValueError "not called")
                end)
    (SumExecutor [Mul (New GeneratorL1) 100%float;
                  Mul (New GeneratorLSGAN) 1%float;
                  Mul (New FeatureMatchingLoss) 10%float])
  = Ok (Op "add_n" [Scale 100 (Sym "l1" 1);
                    Scale 1 (Sym "lsgan" 1);
                    Scale 10 (Sym "fm" 1)]).
Proof. reflexivity. Qed.

Example l1_loss_as_constructed :
  @L1Loss.call TF L1Loss.__init__ real fake
  = Ok (AxisOp "reduce_mean" None (Op "abs" [Op "sub" [real; fake]])).
Proof. reflexivity. Qed.

Example l1_loss_reduction_sum :
  @L1Loss.call TF (L1Loss.set_reduction L1Loss.__init__ SUM) real fake
  = Raise (ValueError "L1Loss: unhandled reduction type").
Proof. reflexivity. Qed.

Example gan_loss_smoothing :
  @GANLoss.call TF (GANLoss.__init__ true 0.125%float) real fake
  = Scale 0.5
      (Op "add"
         [Bce (mkBinaryCrossentropy true 0.125%float AUTO)
            (Op "ones_like" [real]) real;
          Bce (mkBinaryCrossentropy true 0%float AUTO)
            (Op "zeros_like" [fake]) fake]).
Proof. reflexivity. Qed.

End Examples.

(** ** Discriminator inputs *)

Section DiscriminatorInputs.
Context {TF : TensorFlow}.

(** C1.  Without an encoder the discriminator receives the list
    [[fake_or_real, condition]] exactly when the discriminator model
    declares two inputs, and the bare tensor [fake_or_real] for every
    other number of declared inputs. *)
Theorem get_discriminator_inputs_without_encoder
  (context : GANContext) (fake_or_real condition : tensor) (training : bool) :
  encoder_model context = None ->
  let num_inputs := len (inputs (discriminator_model context)) in
  let d_inputs :=
    GANExecutor.get_discriminator_inputs context fake_or_real condition training in
  (num_inputs = 2%nat -> d_inputs = Ok (TensorList [fake_or_real; condition]))
  /\ (num_inputs <> 2%nat -> d_inputs = Ok (OneTensor fake_or_real))
  /\ (d_inputs = Ok (TensorList [fake_or_real; condition]) <-> num_inputs = 2%nat).
Proof.
  intros Henc num_inputs d_inputs.
  subst d_inputs. unfold GANExecutor.get_discriminator_inputs.
  rewrite Henc. fold num_inputs.
  destruct (Nat.eqb num_inputs 2) eqn:E.
  - apply Nat.eqb_eq in E.
    repeat split; auto. intros Hne. contradiction.
  - apply Nat.eqb_neq in E.
    repeat split; auto.
    + intros H2. contradiction.
    + intros H. discriminate H.
    + intros H2. contradiction.
Qed.

(** C2.  With an encoder the discriminator receives
    [[fake_or_real, encoder(fake_or_real)]] for two declared inputs,
    [[fake_or_real, encoder(fake_or_real), condition]] for three, and the
    call raises [ValueError] for any other number; the two-input result is
    the same whatever the condition is. *)
Theorem get_discriminator_inputs_with_encoder
  (context : GANContext) (encoder : tensor -> bool -> tensor)
  (fake_or_real condition : tensor) (training : bool) :
  encoder_model context = Some encoder ->
  let num_inputs := len (inputs (discriminator_model context)) in
  let d_inputs :=
    GANExecutor.get_discriminator_inputs context fake_or_real condition training in
  let encoded := encoder fake_or_real training in
  (num_inputs = 2%nat -> d_inputs = Ok (TensorList [fake_or_real; encoded]))
  /\ (num_inputs = 3%nat ->
      d_inputs = Ok (TensorList [fake_or_real; encoded; condition]))
  /\ (num_inputs <> 2%nat -> num_inputs <> 3%nat -> raises_ValueError d_inputs)
  /\ (raises_ValueError d_inputs -> num_inputs <> 2%nat /\ num_inputs <> 3%nat)
  /\ (num_inputs = 2%nat ->
      forall condition' : tensor,
        GANExecutor.get_discriminator_inputs context fake_or_real condition' training
        = d_inputs).
Proof.
  intros Henc num_inputs d_inputs encoded.
  subst d_inputs encoded. unfold GANExecutor.get_discriminator_inputs.
  rewrite Henc. fold num_inputs.
  destruct (Nat.eqb num_inputs 2) eqn:E2.
  - apply Nat.eqb_eq in E2.
    split; [auto|]. split; [intros H3; rewrite H3 in E2; discriminate|].
    split; [intros Hne; contradiction|].
    split; [intros [msg Hr]; discriminate Hr|auto].
  - apply Nat.eqb_neq in E2.
    split; [intros H2; contradiction|].
    destruct (Nat.eqb num_inputs 3) eqn:E3.
    + apply Nat.eqb_eq in E3.
      split; [auto|].
      split; [intros _ Hne; contradiction|].
      split; [intros [msg Hr]; discriminate Hr|].
      intros H2. contradiction.
    + apply Nat.eqb_neq in E3.
      split; [intros H3; contradiction|].
      split; [intros _ _; eexists; reflexivity|].
      split; [auto|].
      intros H2. contradiction.
Qed.

End DiscriminatorInputs.

Lemma get_discriminator_inputs_without_encoder_witness :
  @GANExecutor.get_discriminator_inputs Symbolic.TF
    (Symbolic.context 2 4 None) Symbolic.fake Symbolic.condition true
  = Ok (TensorList [Symbolic.fake; Symbolic.condition]).
Proof.
  apply (proj1 (@get_discriminator_inputs_without_encoder Symbolic.TF
                  (Symbolic.context 2 4 None)
                  Symbolic.fake Symbolic.condition true eq_refl)).
  reflexivity.
Defined.

Lemma get_discriminator_inputs_with_encoder_witness :
  @GANExecutor.get_discriminator_inputs Symbolic.TF
    (Symbolic.context 3 4 (Some Symbolic.encoder))
    Symbolic.fake Symbolic.condition true
  = Ok (TensorList [Symbolic.fake;
                    Symbolic.Op "E" [Symbolic.fake];
                    Symbolic.condition]).
Proof.
  apply (proj1 (proj2 (@get_discriminator_inputs_with_encoder Symbolic.TF
                  (Symbolic.context 3 4 (Some Symbolic.encoder))
                  Symbolic.encoder Symbolic.fake Symbolic.condition true eq_refl))).
  reflexivity.
Defined.

(** ** Selecting the adversarial loss *)

Lemma py_eq_GAN (v : py_value) :
  py_eq v (PyEnum GAN) || py_eq v (PyInt (value GAN)) = true
  <-> v = PyEnum GAN \/ v = PyInt 0 \/ v = PyBool false.
Proof.
  split.
  - destruct v as [[|]|z|[|]|s|]; simpl; intros H; try discriminate H; auto.
    apply Z.eqb_eq in H. subst z. auto.
  - intros [H|[H|H]]; subst v; reflexivity.
Qed.

Lemma py_eq_LSGAN (v : py_value) :
  py_eq v (PyEnum LSGAN) || py_eq v (PyInt (value LSGAN)) = true
  <-> v = PyEnum LSGAN \/ v = PyInt 1 \/ v = PyBool true.
Proof.
  split.
  - destruct v as [[|]|z|[|]|s|]; simpl; intros H; try discriminate H; auto.
    apply Z.eqb_eq in H. subst z. auto.
  - intros [H|[H|H]]; subst v; reflexivity.
Qed.

Lemma py_eq_GAN_not_LSGAN (v : py_value) :
  py_eq v (PyEnum LSGAN) || py_eq v (PyInt (value LSGAN)) = true ->
  py_eq v (PyEnum GAN) || py_eq v (PyInt (value GAN)) = false.
Proof.
  intros H. apply py_eq_LSGAN in H.
  destruct H as [H|[H|H]]; subst v; reflexivity.
Qed.

(** C4.  [get_adversarial_loss_generator] returns [GeneratorBCE] for an
    argument equal to [AdversarialLossType.GAN] or to its value 0,
    [GeneratorLSGAN] for one equal to [AdversarialLossType.LSGAN] or to its
    value 1, and raises [ValueError] for any other argument;
    [get_adversarial_loss_discriminator] does the same with
    [DiscriminatorMinMax] and [DiscriminatorLSGAN]. *)
Theorem get_adversarial_loss_by_type (adversarial_loss_type : py_value) :
  let is_gan :=
    py_eq adversarial_loss_type (PyEnum GAN)
    || py_eq adversarial_loss_type (PyInt 0) in
  let is_lsgan :=
    py_eq adversarial_loss_type (PyEnum LSGAN)
    || py_eq adversarial_loss_type (PyInt 1) in
  (is_gan = true ->
     get_adversarial_loss_generator adversarial_loss_type = Ok GeneratorBCE
     /\ get_adversarial_loss_discriminator adversarial_loss_type
        = Ok DiscriminatorMinMax)
  /\ (is_lsgan = true ->
     get_adversarial_loss_generator adversarial_loss_type = Ok GeneratorLSGAN
     /\ get_adversarial_loss_discriminator adversarial_loss_type
        = Ok DiscriminatorLSGAN)
  /\ (is_gan = false -> is_lsgan = false ->
     raises_ValueError (get_adversarial_loss_generator adversarial_loss_type)
     /\ raises_ValueError
          (get_adversarial_loss_discriminator adversarial_loss_type)).
Proof.
  intros is_gan is_lsgan.
  unfold get_adversarial_loss_generator, get_adversarial_loss_discriminator.
  change (value GAN) with 0. change (value LSGAN) with 1.
  fold is_gan. fold is_lsgan.
  split; [|split].
  - intros Hg. rewrite Hg. split; reflexivity.
  - intros Hl.
    assert (Hg : is_gan = false) by (apply py_eq_GAN_not_LSGAN; exact Hl).
    rewrite Hg, Hl. split; reflexivity.
  - intros Hg Hl. rewrite Hg, Hl.
    split; eexists; reflexivity.
Qed.

(** ** Composite losses *)

Section CompositeLosses.
Variable weight : Type.

Lemma generator_loss_classes (t : py_value) (adversarial : ExecutorClass) :
  get_adversarial_loss_generator t = Ok adversarial ->
  adversarial = GeneratorBCE \/ adversarial = GeneratorLSGAN.
Proof.
  unfold get_adversarial_loss_generator.
  destruct (py_eq t (PyEnum GAN) || py_eq t (PyInt (value GAN))).
  - intros H. injection H as <-. auto.
  - destruct (py_eq t (PyEnum LSGAN) || py_eq t (PyInt (value LSGAN))).
    + intros H. injection H as <-. auto.
    + intros H. discriminate H.
Qed.

(** C3.  [Pix2PixLoss] is the [SumExecutor] of [GeneratorL1] times
    [l1_loss_weight] and the selected adversarial generator loss times
    [adversarial_loss_weight], followed by [FeatureMatchingLoss] times
    [feature_matching_weight] exactly when [use_feature_matching_loss] is
    set; [Pix2PixLossSemantic] is the same with [CategoricalCrossEntropy]
    times [cross_entropy_weight] first.  Called, the composite yields the
    sum of its components' tensors, each scaled by its weight. *)
Theorem Pix2PixLoss_weighted_sum
  (first_weight adversarial_loss_weight feature_matching_weight : weight)
  (adversarial_loss_type : py_value) (use_feature_matching_loss : bool)
  (adversarial : ExecutorClass) :
  get_adversarial_loss_generator adversarial_loss_type = Ok adversarial ->
  let summands (first : ExecutorClass) : list (Executor weight) :=
    ([Mul (New first) first_weight; Mul (New adversarial) adversarial_loss_weight]
     ++ (if use_feature_matching_loss
         then [Mul (New FeatureMatchingLoss) feature_matching_weight]
         else []))%list in
  Pix2PixLoss first_weight adversarial_loss_weight feature_matching_weight
    adversarial_loss_type use_feature_matching_loss
  = Ok (SumExecutor (summands GeneratorL1))
  /\ Pix2PixLossSemantic first_weight adversarial_loss_weight
       feature_matching_weight adversarial_loss_type use_feature_matching_loss
     = Ok (SumExecutor (summands CategoricalCrossEntropy))
  /\ (forall first,
        first = GeneratorL1 \/ first = CategoricalCrossEntropy ->
        (len (summands first) = 3%nat <-> use_feature_matching_loss = true)
        /\ (len (summands first) = 2%nat <-> use_feature_matching_loss = false)
        /\ ((exists w, In (Mul (New FeatureMatchingLoss) w) (summands first))
            <-> use_feature_matching_loss = true))
  /\ (forall (TF : TensorFlow) (scale : weight -> tensor -> tensor)
        (component : ExecutorClass -> result tensor)
        (first : ExecutorClass) (first_loss adversarial_loss : tensor),
        component first = Ok first_loss ->
        component adversarial = Ok adversarial_loss ->
        (use_feature_matching_loss = false ->
           Executor_call scale component (SumExecutor (summands first))
           = Ok (add_n [scale first_weight first_loss;
                        scale adversarial_loss_weight adversarial_loss]))
        /\ (forall feature_matching_loss : tensor,
              use_feature_matching_loss = true ->
              component FeatureMatchingLoss = Ok feature_matching_loss ->
              Executor_call scale component (SumExecutor (summands first))
              = Ok (add_n [scale first_weight first_loss;
                           scale adversarial_loss_weight adversarial_loss;
                           scale feature_matching_weight feature_matching_loss]))).
Proof.
  intros Hadv summands.
  assert (Hcls := generator_loss_classes _ _ Hadv).
  split; [|split; [|split]].
  - unfold Pix2PixLoss. rewrite Hadv. simpl.
    subst summands.
    destruct use_feature_matching_loss; reflexivity.
  - unfold Pix2PixLossSemantic. rewrite Hadv. simpl.
    subst summands.
    destruct use_feature_matching_loss; reflexivity.
  - intros first Hfirst. subst summands.
    destruct use_feature_matching_loss; simpl.
    + repeat split; auto; try discriminate.
      intros _. exists feature_matching_weight. auto.
    + repeat split; auto; try discriminate.
      intros [w [H|[H|[]]]].
      * destruct Hfirst; subst first; discriminate H.
      * destruct Hcls; subst adversarial; discriminate H.
  - intros TF scale component first first_loss adversarial_loss Hf Ha.
    subst summands. split.
    + intros ->. simpl. rewrite Hf, Ha. reflexivity.
    + intros feature_matching_loss -> Hfm. simpl. rewrite Hf, Ha, Hfm.
      reflexivity.
Qed.

End CompositeLosses.

Lemma Pix2PixLoss_weighted_sum_witness :
  Pix2PixLoss 100%float 1%float 10%float (PyEnum LSGAN) true
  = Ok (SumExecutor [Mul (New GeneratorL1) 100%float;
                     Mul (New GeneratorLSGAN) 1%float;
                     Mul (New FeatureMatchingLoss) 10%float]).
Proof.
  exact (proj1 (Pix2PixLoss_weighted_sum float 100%float 1%float 10%float
                  (PyEnum LSGAN) true GeneratorLSGAN eq_refl)).
Defined.

(** ** The multi-scale discriminator *)

Section MultiScale.
Context {TF : TensorFlow}.

Import MultiScaleDiscriminator.

Lemma range_length (n : Z) : List.length (range n) = Z.to_nat n.
Proof. unfold range. rewrite length_map, length_seq. reflexivity. Qed.

Lemma range_nth (n i : Z) :
  0 <= i < n -> nth_error (range n) (Z.to_nat i) = Some i.
Proof.
  intros Hi. unfold range.
  rewrite nth_error_map, nth_error_seq.
  destruct (Nat.ltb_spec (Z.to_nat i) (Z.to_nat n)) as [_|Hge]; [|lia].
  simpl. f_equal. lia.
Qed.

(** Appending a discriminator changes no hyper-parameter, so the next
    discriminator is built from the same ones. *)
Lemma build_after_append (self : t) (d : PatchDiscriminator.t) (res : Z) :
  build_discriminator (append_discriminator self d) res
  = build_discriminator self res.
Proof. reflexivity. Qed.

(** The construction loop appends one discriminator per element. *)
Lemma init_loop (res : Z -> Z) (l : list Z) (self : t) :
  discriminators
    (fold_left
       (fun self i => append_discriminator self (build_discriminator self (res i)))
       l self)
  = (discriminators self
     ++ map (fun i => build_discriminator self (res i)) l)%list.
Proof.
  revert self. induction l as [|i l IH]; intros self; simpl.
  - rewrite app_nil_r. reflexivity.
  - rewrite IH. simpl. rewrite <- app_assoc. reflexivity.
Qed.

Lemma init_discriminators
  (input_res min_res kernel_size initial_filters filters_cap : Z)
  (use_dropout : bool) (dropout_prob : float)
  (non_linearity normalization_layer : layer_class) (use_attention : bool)
  (n_discriminators : Z) :
  discriminators
    (__init__ input_res min_res kernel_size initial_filters filters_cap
       use_dropout dropout_prob non_linearity normalization_layer
       use_attention n_discriminators)
  = map (fun i =>
           PatchDiscriminator.__init__ (int_truediv input_res (2 ^ i))
             min_res kernel_size initial_filters filters_cap use_dropout
             dropout_prob non_linearity normalization_layer use_attention)
        (range n_discriminators).
Proof.
  unfold __init__. cbv zeta.
  change (discriminators (set_inputs ?s ?v)) with (discriminators s).
  rewrite (init_loop (fun i => int_truediv input_res (2 ^ i))).
  reflexivity.
Qed.

Lemma init_without_discriminators
  (input_res min_res kernel_size initial_filters filters_cap : Z)
  (use_dropout : bool) (dropout_prob : float)
  (non_linearity normalization_layer : layer_class) (use_attention : bool)
  (n_discriminators : Z) :
  n_discriminators <= 0 ->
  discriminators
    (__init__ input_res min_res kernel_size initial_filters filters_cap
       use_dropout dropout_prob non_linearity normalization_layer
       use_attention n_discriminators)
  = [].
Proof.
  intros Hn. rewrite init_discriminators. unfold range.
  replace (Z.to_nat n_discriminators) with 0%nat by lia. reflexivity.
Qed.

Context {Init : Construct.BaseEncoderInit}.

Lemma build_scale_raised (input_res : Z) (l : list Z) (error : string) :
  fold_left (Construct.build_scale input_res) l (Raised error) = Raised error.
Proof. induction l as [|i l IH]; simpl; [reflexivity | exact IH]. Qed.

Lemma appended_discriminators (ds : list PatchDiscriminator.t) :
  forall self : t,
    discriminators (fold_left append_discriminator ds self)
    = (discriminators self ++ ds)%list.
Proof.
  induction ds as [|d ds IH]; intros self; simpl.
  - rewrite app_nil_r. reflexivity.
  - rewrite IH. simpl. rewrite <- app_assoc. reflexivity.
Qed.

Lemma build_scale_step (input_res : Z) (self : t) (i : Z) :
  Construct.build_scale input_res (Returned self) i
  = match int_of_truediv input_res (2 ^ i) with
    | Returned res =>
        match Construct.build_discriminator self res with
        | Returned d => Returned (append_discriminator self d)
        | Raised error => Raised error
        end
    | Raised error => Raised error
    end.
Proof.
  unfold Construct.build_scale. cbn [and_then].
  destruct (int_of_truediv input_res (2 ^ i)); cbn [and_then]; [|reflexivity].
  destruct (Construct.build_discriminator self a); reflexivity.
Qed.

(** A construction loop that returns has appended one discriminator per
    index, each built from the resolution of its index. *)
Lemma new_loop (input_res : Z) (l : list Z) :
  forall self self' : t,
    fold_left (Construct.build_scale input_res) l (Returned self)
    = Returned self' ->
    exists ds : list PatchDiscriminator.t,
      self' = fold_left append_discriminator ds self
      /\ Forall2 (Construct.built_scale input_res self) l ds.
Proof.
  induction l as [|i l IH]; intros self self' Hfold; cbn [fold_left] in Hfold.
  - injection Hfold as <-. exists []. split; [reflexivity | constructor].
  - rewrite build_scale_step in Hfold.
    destruct (int_of_truediv input_res (2 ^ i)) as [res|error] eqn:Hres;
      [|rewrite build_scale_raised in Hfold; discriminate Hfold].
    destruct (Construct.build_discriminator self res) as [d|error] eqn:Hd;
      [|rewrite build_scale_raised in Hfold; discriminate Hfold].
    assert (Hrec : d = build_discriminator self res).
    { revert Hd. unfold Construct.build_discriminator,
        Construct.new_PatchDiscriminator, build_discriminator.
      destruct (Construct.super_init _ _ _ _ _ _ _ _ _ _); simpl; intros H.
      - injection H as <-. reflexivity.
      - discriminate H. }
    destruct (IH _ _ Hfold) as [ds [Hself' Hds]].
    exists (d :: ds). split; [exact Hself'|].
    constructor.
    + exists res. repeat split; assumption.
    + exact Hds.
Qed.

Lemma Forall2_nth_error {A B} (P : A -> B -> Prop) (l : list A) (l' : list B) :
  Forall2 P l l' ->
  forall (k : nat) (a : A),
    nth_error l k = Some a ->
    exists b : B, nth_error l' k = Some b /\ P a b.
Proof.
  induction 1 as [|a0 b0 l l' Hab _ IH]; intros [|k] a Hk; simpl in Hk.
  - discriminate Hk.
  - discriminate Hk.
  - injection Hk as <-. exists b0. split; [reflexivity | exact Hab].
  - exact (IH k a Hk).
Qed.

Lemma new_discriminators
  (input_res min_res kernel_size initial_filters filters_cap : Z)
  (use_dropout : bool) (dropout_prob : float)
  (non_linearity normalization_layer : layer_class) (use_attention : bool)
  (n_discriminators : Z) (self : t) :
  Construct.new_MultiScaleDiscriminator input_res min_res kernel_size
    initial_filters filters_cap use_dropout dropout_prob non_linearity
    normalization_layer use_attention n_discriminators
  = Returned self ->
  let self0 :=
    mk n_discriminators input_res min_res kernel_size initial_filters
      filters_cap dropout_prob non_linearity use_dropout use_attention
      normalization_layer [] [] in
  exists ds : list PatchDiscriminator.t,
    self = set_inputs (fold_left append_discriminator ds self0)
             [InputInt 1; InputInt 1]
    /\ discriminators self = ds
    /\ Forall2 (Construct.built_scale input_res self0) (range n_discriminators) ds.
Proof.
  intros Hnew self0. unfold Construct.new_MultiScaleDiscriminator in Hnew.
  cbv zeta in Hnew. fold self0 in Hnew.
  destruct (fold_left (Construct.build_scale input_res)
              (range (MultiScaleDiscriminator.n_discriminators self0))
              (Returned self0)) as [self'|error] eqn:Hfold;
    simpl in Hnew; [|discriminate Hnew].
  injection Hnew as <-.
  destruct (new_loop input_res _ _ _ Hfold) as [ds [-> Hds]].
  exists ds. split; [reflexivity|]. split; [|exact Hds].
  change (discriminators (set_inputs ?s ?v)) with (discriminators s).
  rewrite appended_discriminators. reflexivity.
Qed.

(** C7.  A constructor call that returns has built [n_discriminators]
    patch discriminators; the [i]-th was constructed with input resolution
    [int(input_res / 2 ** i)] and with the hyper-parameters of the
    multi-scale discriminator otherwise, the same for all of them. *)
Theorem MultiScaleDiscriminator_init_builds
  (input_res min_res kernel_size initial_filters filters_cap : Z)
  (use_dropout : bool) (dropout_prob : float)
  (non_linearity normalization_layer : layer_class) (use_attention : bool)
  (n_discriminators : Z) (self : t) :
  Construct.new_MultiScaleDiscriminator input_res min_res kernel_size
    initial_filters filters_cap use_dropout dropout_prob non_linearity
    normalization_layer use_attention n_discriminators
  = Returned self ->
  0 <= n_discriminators ->
  Z.of_nat (len (discriminators self)) = n_discriminators
  /\ (forall i : Z,
        0 <= i < n_discriminators ->
        exists res : Z,
          int_of_truediv input_res (2 ^ i) = Returned res
          /\ Construct.new_PatchDiscriminator res min_res kernel_size
               initial_filters filters_cap use_dropout dropout_prob
               non_linearity normalization_layer use_attention
             = Returned
                 (PatchDiscriminator.__init__ res min_res kernel_size
                    initial_filters filters_cap use_dropout dropout_prob
                    non_linearity normalization_layer use_attention)
          /\ nth_error (discriminators self) (Z.to_nat i)
             = Some (PatchDiscriminator.__init__ res min_res kernel_size
                       initial_filters filters_cap use_dropout dropout_prob
                       non_linearity normalization_layer use_attention))
  /\ (forall d : PatchDiscriminator.t,
        In d (discriminators self) ->
        PatchDiscriminator.min_res d = min_res
        /\ PatchDiscriminator.kernel_size d = kernel_size
        /\ PatchDiscriminator.initial_filters d = initial_filters
        /\ PatchDiscriminator.filters_cap d = filters_cap
        /\ PatchDiscriminator.use_dropout d = use_dropout
        /\ PatchDiscriminator.dropout_prob d = dropout_prob
        /\ PatchDiscriminator.non_linearity d = non_linearity
        /\ PatchDiscriminator.normalization_layer d = normalization_layer
        /\ PatchDiscriminator.use_attention d = use_attention).
Proof.
  intros Hnew Hn.
  destruct (new_discriminators _ _ _ _ _ _ _ _ _ _ _ _ Hnew)
    as [ds [_ [Hds Hbuilt]]].
  rewrite Hds. split; [|split].
  - unfold len. rewrite <- (Forall2_length Hbuilt), range_length. lia.
  - intros i Hi.
    destruct (Forall2_nth_error _ _ _ Hbuilt (Z.to_nat i) i (range_nth _ _ Hi))
      as [d [Hnth [res [Hres [Hcall Hd]]]]].
    exists res. split; [exact Hres|]. split.
    + rewrite <- Hd at 1. exact Hcall.
    + rewrite Hnth, Hd. reflexivity.
  - intros d Hd. apply In_nth_error in Hd. destruct Hd as [k Hk].
    destruct (Forall2_length Hbuilt).
    assert (Hex : exists i, nth_error (range n_discriminators) k = Some i).
    { destruct (nth_error (range n_discriminators) k) as [i|] eqn:Hi.
      - exists i. reflexivity.
      - apply nth_error_None in Hi.
        assert (Hlt : (k < List.length ds)%nat).
        { apply nth_error_Some. rewrite Hk. discriminate. }
        rewrite <- (Forall2_length Hbuilt) in Hlt. lia. }
    destruct Hex as [i Hi].
    destruct (Forall2_nth_error _ _ _ Hbuilt k i Hi)
      as [d' [Hnth [res [_ [_ Hd']]]]].
    rewrite Hk in Hnth. injection Hnth as <-. rewrite Hd'. repeat split.
Qed.

Context {Base : PatchDiscriminator.BaseEncoder}.

Lemma pyramid_length training ds x c :
  List.length (pyramid training ds x c) = List.length ds.
Proof.
  revert x c. induction ds as [|d ds IH]; intros x c; simpl.
  - reflexivity.
  - rewrite IH. reflexivity.
Qed.

Lemma pyramid_nth training ds x c i d :
  nth_error ds i = Some d ->
  nth_error (pyramid training ds x c) i
  = Some (PatchDiscriminator.call d
            (TensorList [Nat.iter i AvgPool2D x; Nat.iter i AvgPool2D c])
            training true).
Proof.
  revert x c i. induction ds as [|d0 ds IH]; intros x c [|i] Hd; simpl in *.
  - discriminate Hd.
  - discriminate Hd.
  - injection Hd as ->. reflexivity.
  - rewrite (IH _ _ _ Hd).
    rewrite <- !Nat.iter_succ_r. reflexivity.
Qed.

Lemma pyramid_features training ds x c k :
  map snd (pyramid training ds (Nat.iter k AvgPool2D x) (Nat.iter k AvgPool2D c))
  = map (fun '(i, d) =>
           snd (PatchDiscriminator.call d
                  (TensorList [Nat.iter i AvgPool2D x; Nat.iter i AvgPool2D c])
                  training true))
        (combine (seq k (List.length ds)) ds).
Proof.
  revert k. induction ds as [|d ds IH]; intros k; simpl.
  - reflexivity.
  - f_equal. apply (IH (S k)).
Qed.

(** The loop of [call], started at index [k] on the last discriminators
    [ds] of [self]. *)
Lemma call_loop (self : t) (training : bool) (ds : list PatchDiscriminator.t) :
  forall (k : nat) (st : loop_state),
    (k + List.length ds = len (discriminators self))%nat ->
    let st' :=
      fold_left (loop_body self training)
        (combine (seq k (List.length ds)) ds) st in
    outs st'
    = (outs st
       ++ map fst (pyramid training ds (x_i st) (condition_i st)))%list
    /\ features st'
       = (features st
          ++ List.concat
               (map snd (pyramid training ds (x_i st) (condition_i st))))%list.
Proof.
  induction ds as [|d ds IH]; intros k st Hk; simpl.
  - rewrite !app_nil_r. split; reflexivity.
  - simpl in Hk.
    destruct (PatchDiscriminator.call d
                (TensorList [x_i st; condition_i st]) training true)
      as [out feat] eqn:Hcall.
    destruct ds as [|d' ds'].
    + (* the last discriminator: what happens to the inputs is not seen *)
      simpl.
      destruct (negb (Z.of_nat k =? Z.of_nat (len (discriminators self)) - 1));
        simpl; rewrite app_nil_r; split; reflexivity.
    + assert (Hnotlast :
        negb (Z.of_nat k =? Z.of_nat (len (discriminators self)) - 1) = true).
      { apply negb_true_iff, Z.eqb_neq. simpl in Hk. lia. }
      rewrite Hnotlast.
      specialize (IH (S k)
        (mk_state (outs st ++ [out]) (features st ++ feat)
           (AvgPool2D (x_i st)) (AvgPool2D (condition_i st)))).
      destruct IH as [IHo IHf]; [simpl in *; lia|].
      cbv zeta in IHo, IHf. simpl outs in *. simpl features in *.
      simpl x_i in *. simpl condition_i in *.
      split.
      * rewrite IHo, <- app_assoc. reflexivity.
      * rewrite IHf, <- app_assoc. reflexivity.
Qed.

(** The inputs are pooled after every discriminator except the last. *)
Lemma call_loop_inputs (self : t) (training : bool)
  (ds : list PatchDiscriminator.t) :
  forall (k : nat) (st : loop_state),
    (k + List.length ds = len (discriminators self))%nat ->
    let st' :=
      fold_left (loop_body self training)
        (combine (seq k (List.length ds)) ds) st in
    x_i st' = Nat.iter (List.length ds - 1) AvgPool2D (x_i st)
    /\ condition_i st'
       = Nat.iter (List.length ds - 1) AvgPool2D (condition_i st).
Proof.
  induction ds as [|d ds IH]; intros k st Hk; simpl.
  - split; reflexivity.
  - simpl in Hk.
    destruct (PatchDiscriminator.call d
                (TensorList [x_i st; condition_i st]) training true)
      as [out feat] eqn:Hcall.
    destruct ds as [|d' ds'].
    + assert (Hlast :
        negb (Z.of_nat k =? Z.of_nat (len (discriminators self)) - 1) = false).
      { apply negb_false_iff, Z.eqb_eq. simpl in Hk. lia. }
      rewrite Hlast. simpl. split; reflexivity.
    + assert (Hnotlast :
        negb (Z.of_nat k =? Z.of_nat (len (discriminators self)) - 1) = true).
      { apply negb_true_iff, Z.eqb_neq. simpl in Hk. lia. }
      rewrite Hnotlast.
      specialize (IH (S k)
        (mk_state (outs st ++ [out]) (features st ++ feat)
           (AvgPool2D (x_i st)) (AvgPool2D (condition_i st)))).
      destruct IH as [IHx IHc]; [simpl in *; lia|].
      cbv zeta in IHx, IHc. simpl x_i in *. simpl condition_i in *.
      replace (List.length (d' :: ds') - 0)%nat with (S (List.length ds'))
        by (simpl; lia).
      replace (List.length (d' :: ds') - 1)%nat with (List.length ds')
        in IHx, IHc by (simpl; lia).
      rewrite !Nat.iter_succ_r. split; [exact IHx | exact IHc].
Qed.

Lemma call_pyramid (self : t) (x condition : tensor) (training : bool) :
  let levels := pyramid training (discriminators self) x condition in
  call self (TensorList [x; condition]) training true
  = Ok (TensorList (map fst levels), List.concat (map snd levels))
  /\ call self (TensorList [x; condition]) training false
     = Ok (TensorList (map fst levels)).
Proof.
  intros levels. unfold call, unpack_inputs, enumerate. simpl.
  destruct (call_loop self training (discriminators self) 0
              (mk_state [] [] x condition) eq_refl) as [Ho Hf].
  cbv zeta in Ho, Hf. simpl in Ho, Hf.
  rewrite Ho, Hf. split; reflexivity.
Qed.

(** C5.  On a pair [[x, condition]] a multi-scale discriminator returns
    one output per internal discriminator, [n_discriminators] in all; the
    [i]-th output is the [i]-th discriminator applied to [x] and
    [condition] pooled [i] times; with [return_features] the result is the
    pair of the outputs and the features, without it the outputs alone. *)
Theorem MultiScaleDiscriminator_call_outputs
  (input_res min_res kernel_size initial_filters filters_cap : Z)
  (use_dropout : bool) (dropout_prob : float)
  (non_linearity normalization_layer : layer_class) (use_attention : bool)
  (n_discriminators : Z) (x condition : tensor) (training : bool) :
  0 <= n_discriminators ->
  let self :=
    __init__ input_res min_res kernel_size initial_filters filters_cap
      use_dropout dropout_prob non_linearity normalization_layer
      use_attention n_discriminators in
  let D (i : nat) (d : PatchDiscriminator.t) :=
    PatchDiscriminator.call d
      (TensorList [Nat.iter i AvgPool2D x; Nat.iter i AvgPool2D condition])
      training true in
  exists (outs features : list tensor),
    call self (TensorList [x; condition]) training true
    = Ok (TensorList outs, features)
    /\ call self (TensorList [x; condition]) training false
       = Ok (TensorList outs)
    /\ Z.of_nat (len outs) = n_discriminators
    /\ (forall i d,
          nth_error (discriminators self) i = Some d ->
          nth_error outs i = Some (fst (D i d)))
    /\ features
       = List.concat (map (fun '(i, d) => snd (D i d))
                        (enumerate (discriminators self)))
    /\ (let final :=
          fold_left (loop_body self training)
            (enumerate (discriminators self)) (mk_state [] [] x condition) in
        x_i final = Nat.iter (Z.to_nat n_discriminators - 1) AvgPool2D x
        /\ condition_i final
           = Nat.iter (Z.to_nat n_discriminators - 1) AvgPool2D condition).
Proof.
  intros Hn self D.
  assert (Hlen : List.length (discriminators self) = Z.to_nat n_discriminators).
  { subst self. rewrite init_discriminators, length_map, range_length.
    reflexivity. }
  destruct (call_pyramid self x condition training) as [Ht Hf].
  cbv zeta in Ht, Hf.
  exists (map fst (pyramid training (discriminators self) x condition)).
  exists (List.concat
            (map snd (pyramid training (discriminators self) x condition))).
  split; [exact Ht|]. split; [exact Hf|]. split; [|split; [|split]].
  - unfold len. rewrite length_map, pyramid_length, Hlen. lia.
  - intros i d Hd. rewrite nth_error_map.
    rewrite (pyramid_nth _ _ _ _ _ _ Hd). reflexivity.
  - f_equal. apply (pyramid_features training (discriminators self) x condition 0).
  - intros final. subst final. unfold enumerate. rewrite <- Hlen.
    exact (call_loop_inputs self training (discriminators self) 0
             (mk_state [] [] x condition) eq_refl).
Qed.

End MultiScale.

Lemma MultiScaleDiscriminator_init_builds_witness :
  nth_error
    (@MultiScaleDiscriminator.discriminators Symbolic.TF (Symbolic.multiscale 3)) 2
  = Some (Symbolic.patch_discriminator 64).
Proof.
  destruct (proj1 (proj2
    (@MultiScaleDiscriminator_init_builds Symbolic.TF Symbolic_Init
       256 16 4 64 512 true 0.25%float "LeakyReLU" "InstanceNormalization"
       false 3 (Symbolic.multiscale 3) eq_refl ltac:(lia))) 2 ltac:(lia))
    as [res [Hres [_ Hnth]]].
  vm_compute in Hres. injection Hres as <-. exact Hnth.
Defined.

Lemma MultiScaleDiscriminator_call_outputs_witness :
  exists outs : list Symbolic.sym,
    @MultiScaleDiscriminator.call Symbolic.TF Symbolic.Base
      (Symbolic.multiscale 2)
      (TensorList [Symbolic.fake; Symbolic.condition]) true false
    = Ok (TensorList outs)
    /\ Z.of_nat (len outs) = 2.
Proof.
  destruct (@MultiScaleDiscriminator_call_outputs Symbolic.TF Symbolic.Base
              256 16 4 64 512 true 0.25%float "LeakyReLU"
              "InstanceNormalization" false 2
              Symbolic.fake Symbolic.condition true ltac:(lia))
    as (outs & features & _ & Hplain & Hlen & _).
  exists outs. split; [exact Hplain | exact Hlen].
Defined.

(** ** Freshly constructed discriminators *)

Section FreshDiscriminators.
Context {TF : TensorFlow} {Base : PatchDiscriminator.BaseEncoder}.

(** C8.  A freshly constructed [PatchDiscriminator] or
    [MultiScaleDiscriminator] has [inputs = [1, 1]], of length two, so
    [get_discriminator_inputs] takes its two-input branch for it: the
    condition is passed along without an encoder, the encoding with one. *)
Theorem fresh_discriminators_declare_two_inputs
  (input_res min_res kernel_size initial_filters filters_cap : Z)
  (use_dropout : bool) (dropout_prob : float)
  (non_linearity normalization_layer : layer_class) (use_attention : bool)
  (n_discriminators : Z) :
  let patch :=
    PatchDiscriminator.__init__ input_res min_res kernel_size initial_filters
      filters_cap use_dropout dropout_prob non_linearity normalization_layer
      use_attention in
  let multiscale :=
    MultiScaleDiscriminator.__init__ input_res min_res kernel_size
      initial_filters filters_cap use_dropout dropout_prob non_linearity
      normalization_layer use_attention n_discriminators in
  PatchDiscriminator.inputs patch = [InputInt 1; InputInt 1]
  /\ MultiScaleDiscriminator.inputs multiscale = [InputInt 1; InputInt 1]
  /\ (forall model : Model,
        model = PatchDiscriminator.as_model patch
        \/ model = MultiScaleDiscriminator.as_model multiscale ->
        len (inputs model) = 2%nat
        /\ (forall (fake_or_real condition : tensor) (training : bool),
              GANExecutor.get_discriminator_inputs
                (mkGANContext model None) fake_or_real condition training
              = Ok (TensorList [fake_or_real; condition]))
        /\ (forall (encoder : tensor -> bool -> tensor)
                   (fake_or_real condition : tensor) (training : bool),
              GANExecutor.get_discriminator_inputs
                (mkGANContext model (Some encoder)) fake_or_real condition training
              = Ok (TensorList [fake_or_real; encoder fake_or_real training]))).
Proof.
  intros patch multiscale.
  split; [reflexivity|]. split; [reflexivity|].
  intros model [-> | ->]; repeat split.
Qed.

End FreshDiscriminators.

(** ** Adversarial losses *)

Section AdversarialLosses.
Context {TF : TensorFlow}.

(** A comprehension over calls that all succeed yields the list of their
    values. *)
Lemma mapM_Forall2 {A B C} (f : A -> result B) (g : B -> C)
  (xs : list A) (vs : list B) :
  Forall2 (fun x v => f x = Ok v) xs vs ->
  mapM (fun x => v <- f x ;; Ok (g v)) xs = Ok (map g vs).
Proof.
  induction 1 as [|x v xs vs Hx _ IH]; simpl.
  - reflexivity.
  - rewrite Hx. simpl. rewrite IH. reflexivity.
Qed.

Lemma mapM_ext {A B} (f g : A -> result B) (xs : list A) :
  (forall x, f x = g x) -> mapM f xs = mapM g xs.
Proof.
  intros Hfg. induction xs as [|x xs IH]; simpl.
  - reflexivity.
  - rewrite Hfg, IH. reflexivity.
Qed.

(** C6.  When the discriminator returns a list, [AdversarialLossG.call]
    and [AdversarialLossD.call] return the sum over the scales of the loss
    function's value averaged over axes 1 and 2.  When it returns one
    tensor, the loss function's value is averaged over axes 1 and 2 as it
    is if the discriminator output has rank 4, and after two trailing axes
    have been added to it if the rank is not 4. *)
Theorem adversarial_loss_call_value
  (_fn : loss_fn) (context : GANContext)
  (fake real condition : tensor) (training : bool)
  (fake_inputs real_inputs : discriminator_inputs) :
  GANExecutor.get_discriminator_inputs context fake condition training
  = Ok fake_inputs ->
  GANExecutor.get_discriminator_inputs context real condition training
  = Ok real_inputs ->
  let D (i : discriminator_inputs) : result model_output :=
    model_call (discriminator_model context) i training false in
  let mean12 (v : tensor) := reduce_mean v (Some [1; 2]) in
  let expanded (v : tensor) := expand_dims (expand_dims v (-1)) (-1) in
  let G := AdversarialLossG.call _fn context fake condition training in
  let D_loss := AdversarialLossD.call _fn context fake real condition training in
  (forall (d_fake losses : list tensor),
      D fake_inputs = Ok (TensorList d_fake) ->
      Forall2 (fun d_fake_i v => _fn (ones_like d_fake_i) d_fake_i = Ok v)
        d_fake losses ->
      G = Ok (add_n (map mean12 losses)))
  /\ (forall (d_fake d_real losses : list tensor),
      D fake_inputs = Ok (TensorList d_fake) ->
      D real_inputs = Ok (TensorList d_real) ->
      Forall2 (fun p v => _fn (fst p) (snd p) = Ok v)
        (combine d_real d_fake) losses ->
      D_loss = Ok (add_n (map mean12 losses)))
  /\ (forall (d_fake v : tensor),
      D fake_inputs = Ok (OneTensor d_fake) ->
      _fn (ones_like d_fake) d_fake = Ok v ->
      (rank d_fake = 4 -> G = Ok (mean12 v))
      /\ (rank d_fake <> 4 -> G = Ok (mean12 (expanded v))))
  /\ (forall (d_fake d_real v : tensor),
      D fake_inputs = Ok (OneTensor d_fake) ->
      D real_inputs = Ok (OneTensor d_real) ->
      _fn d_real d_fake = Ok v ->
      (rank d_fake = 4 -> D_loss = Ok (mean12 v))
      /\ (rank d_fake <> 4 -> D_loss = Ok (mean12 (expanded v)))).
Proof.
  intros Hfake Hreal D mean12 expanded G D_loss.
  subst G D_loss. unfold AdversarialLossG.call, AdversarialLossD.call.
  rewrite Hfake, Hreal. simpl. fold (D fake_inputs). fold (D real_inputs).
  split; [|split; [|split]].
  - intros d_fake losses Hd Hl. rewrite Hd.
    assert (E := mapM_Forall2 (fun d => _fn (ones_like d) d) mean12 _ _ Hl).
    unfold bind at 1. cbv beta iota. subst mean12. cbv beta in E |- *.
    rewrite E. reflexivity.
  - intros d_fake d_real losses Hdf Hdr Hl. rewrite Hdf, Hdr.
    assert (E := mapM_Forall2 (fun p => _fn (fst p) (snd p)) mean12 _ _ Hl).
    unfold bind at 1. unfold bind at 1. cbv beta iota.
    subst mean12. cbv beta in E |- *.
    replace (mapM _ (combine (output_iter (TensorList d_real)) d_fake))
      with (Ok (A := list tensor)
              (map (fun v => reduce_mean v (Some [1; 2])) losses)).
    + reflexivity.
    + rewrite <- E. simpl output_iter.
      apply mapM_ext. intros [d_real_i d_fake_i]. reflexivity.
  - intros d_fake v Hd Hv. rewrite Hd. simpl. rewrite Hv. simpl.
    split; intros Hr.
    + apply Z.eqb_eq in Hr. rewrite Hr. reflexivity.
    + apply Z.eqb_neq in Hr. rewrite Hr. reflexivity.
  - intros d_fake d_real v Hdf Hdr Hv. rewrite Hdf, Hdr. simpl.
    rewrite Hv. simpl.
    split; intros Hr.
    + apply Z.eqb_eq in Hr. rewrite Hr. reflexivity.
    + apply Z.eqb_neq in Hr. rewrite Hr. reflexivity.
Qed.

End AdversarialLosses.

Lemma adversarial_loss_call_value_witness :
  @AdversarialLossG.call Symbolic.TF Symbolic.loss
    (Symbolic.context 2 2 None) Symbolic.fake Symbolic.condition true
  = Ok (Symbolic.AxisOp "reduce_mean" (Some [1; 2])
          (Symbolic.AxisOp "expand_dims" (Some [-1])
             (Symbolic.AxisOp "expand_dims" (Some [-1])
                (Symbolic.Op "loss"
                   [Symbolic.Op "ones_like"
                      [Symbolic.Op "D"
                         [Symbolic.Sym "out" 2; Symbolic.fake; Symbolic.condition]];
                    Symbolic.Op "D"
                      [Symbolic.Sym "out" 2; Symbolic.fake; Symbolic.condition]])))).
Proof.
  pose proof (@adversarial_loss_call_value Symbolic.TF Symbolic.loss
                (Symbolic.context 2 2 None)
                Symbolic.fake Symbolic.real Symbolic.condition true
                (TensorList [Symbolic.fake; Symbolic.condition])
                (TensorList [Symbolic.real; Symbolic.condition])
                eq_refl eq_refl) as H.
  cbv zeta in H.
  destruct H as (_ & _ & Hone & _).
  apply (Hone (Symbolic.Op "D"
                 [Symbolic.Sym "out" 2; Symbolic.fake; Symbolic.condition])
              _ eq_refl eq_refl).
  vm_compute. discriminate.
Defined.

(** ** Loss objects *)

Section LossObjects.
Context {TF : TensorFlow}.

(** Assigning [reduction] changes neither [from_logits] nor
    [label_smoothing] of the two cross-entropies. *)
Lemma GANLoss_set_reduction_keeps (self : GANLoss.t) (value : Reduction)
  (from_logits : bool) (smoothing : float) (r : Reduction) :
  GANLoss._positive_bce self = mkBinaryCrossentropy from_logits smoothing r ->
  GANLoss._negative_bce self = mkBinaryCrossentropy from_logits 0%float r ->
  GANLoss._positive_bce (GANLoss.set_reduction self value)
  = mkBinaryCrossentropy from_logits smoothing value
  /\ GANLoss._negative_bce (GANLoss.set_reduction self value)
     = mkBinaryCrossentropy from_logits 0%float value.
Proof.
  intros Hp Hn. unfold GANLoss.set_reduction, GANLoss.with_reduction. simpl.
  rewrite Hp, Hn. split; reflexivity.
Qed.

Lemma GANLoss_reductions_keep (values : list Reduction) :
  forall (self : GANLoss.t) (from_logits : bool) (smoothing : float)
         (r : Reduction),
    GANLoss._positive_bce self = mkBinaryCrossentropy from_logits smoothing r ->
    GANLoss._negative_bce self = mkBinaryCrossentropy from_logits 0%float r ->
    let self' := fold_left GANLoss.set_reduction values self in
    GANLoss._positive_bce self'
    = mkBinaryCrossentropy from_logits smoothing (GANLoss.get_reduction self')
    /\ GANLoss._negative_bce self'
       = mkBinaryCrossentropy from_logits 0%float (GANLoss.get_reduction self').
Proof.
  induction values as [|value values IH]; intros self fl sm r Hp Hn; simpl.
  - unfold GANLoss.get_reduction. rewrite Hp, Hn. split; reflexivity.
  - destruct (GANLoss_set_reduction_keeps self value fl sm r Hp Hn) as [Hp' Hn'].
    exact (IH _ fl sm value Hp' Hn').
Qed.

(** C9.  [GANLoss.call] returns 0.5 times the sum of the binary
    cross-entropy of [d_real] against ones and that of [d_fake] against
    zeros.  The cross-entropy of the real branch carries the constructor's
    [label_smoothing], that of the fake branch label smoothing 0.0,
    whatever is assigned to [reduction] after construction. *)
Theorem GANLoss_call_value
  (from_logits : bool) (label_smoothing : float) (reductions : list Reduction)
  (d_real d_fake : tensor) :
  let self :=
    fold_left GANLoss.set_reduction reductions
      (GANLoss.__init__ from_logits label_smoothing) in
  let positive_bce :=
    mkBinaryCrossentropy from_logits label_smoothing (GANLoss.get_reduction self) in
  let negative_bce :=
    mkBinaryCrossentropy from_logits 0%float (GANLoss.get_reduction self) in
  GANLoss.call self d_real d_fake
  = tf_scale 0.5%float
      (tf_add (binary_crossentropy positive_bce (ones_like d_real) d_real)
              (binary_crossentropy negative_bce (zeros_like d_fake) d_fake))
  /\ GANLoss._positive_bce self = positive_bce
  /\ GANLoss._negative_bce self = negative_bce.
Proof.
  intros self positive_bce negative_bce.
  destruct (GANLoss_reductions_keep reductions
              (GANLoss.__init__ from_logits label_smoothing)
              from_logits label_smoothing AUTO eq_refl eq_refl) as [Hp Hn].
  fold self in Hp, Hn. fold positive_bce in Hp. fold negative_bce in Hn.
  unfold GANLoss.call. rewrite Hp, Hn. repeat split.
Qed.

(** C10.  [L1Loss.call] returns the mean of [|x - y|] over every axis for
    the reduction [SUM_OVER_BATCH_SIZE], over the axes [(1, 2, 3)] for the
    reduction [NONE], and raises [ValueError] for any other reduction. *)
Theorem L1Loss_call_by_reduction (self : L1Loss.t) (x y : tensor) :
  let mae := tf_abs (tf_sub x y) in
  (L1Loss._reduction self = SUM_OVER_BATCH_SIZE ->
     L1Loss.call self x y = Ok (reduce_mean mae None))
  /\ (L1Loss._reduction self = NONE ->
     L1Loss.call self x y = Ok (reduce_mean mae (Some [1; 2; 3])))
  /\ (L1Loss._reduction self <> SUM_OVER_BATCH_SIZE ->
      L1Loss._reduction self <> NONE ->
      L1Loss.call self x y
      = Raise (ValueError "L1Loss: unhandled reduction type"))
  /\ (raises_ValueError (L1Loss.call self x y) ->
      L1Loss._reduction self <> SUM_OVER_BATCH_SIZE
      /\ L1Loss._reduction self <> NONE).
Proof.
  intros mae. subst mae. unfold L1Loss.call.
  destruct (String.eqb_spec (L1Loss._reduction self) SUM_OVER_BATCH_SIZE) as [Hs|Hs].
  - repeat split; auto.
    + intros Hn. rewrite Hs in Hn. discriminate Hn.
    + intros Hne. contradiction.
    + destruct H as [msg H]. discriminate H.
    + destruct H as [msg H]. discriminate H.
  - destruct (String.eqb_spec (L1Loss._reduction self) NONE) as [Hn|Hn].
    + repeat split; auto.
      * intros Hs'. contradiction.
      * intros _ Hne. contradiction.
      * destruct H as [msg H]. discriminate H.
    + repeat split; auto.
      * intros Hs'. contradiction.
      * intros Hn'. contradiction.
Qed.

End LossObjects.

(* ================================================================== *)
(** * Further properties of the two modules *)

(** ** Discriminator inputs and the executors built on them *)

Section ExecutorInputs.
Context {TF : TensorFlow}.

(** X1.  A list returned by [get_discriminator_inputs] has as many
    tensors as the discriminator declares inputs and starts with
    [fake_or_real]; a bare tensor is returned only without an encoder, for
    a discriminator that does not declare two inputs, and is
    [fake_or_real] itself; without an encoder the call never raises. *)
Theorem get_discriminator_inputs_shape
  (context : GANContext) (fake_or_real condition : tensor) (training : bool) :
  let num_inputs := len (inputs (discriminator_model context)) in
  let d_inputs :=
    GANExecutor.get_discriminator_inputs context fake_or_real condition training in
  (forall l : list tensor,
      d_inputs = Ok (TensorList l) ->
      len l = num_inputs /\ hd_error l = Some fake_or_real)
  /\ (forall t : tensor,
      d_inputs = Ok (OneTensor t) ->
      t = fake_or_real /\ encoder_model context = None /\ num_inputs <> 2%nat)
  /\ (encoder_model context = None -> exists i, d_inputs = Ok i).
Proof.
  intros num_inputs d_inputs. subst d_inputs.
  unfold GANExecutor.get_discriminator_inputs. fold num_inputs.
  destruct (encoder_model context) as [encoder|];
    destruct (Nat.eqb_spec num_inputs 2) as [E2|E2];
    try destruct (Nat.eqb_spec num_inputs 3) as [E3|E3];
    (split; [intros l H | split; [intros t H | intros Hnone]]);
    try discriminate;
    try (injection H as <-);
    try (split; [symmetry; assumption | reflexivity]);
    try (eexists; reflexivity).
  all: split; [reflexivity | split; [reflexivity | exact E2]].
Qed.

Lemma inputs_encoder_two (model : Model) (encoder : tensor -> bool -> tensor)
  (x condition : tensor) (training : bool) :
  len (inputs model) = 2%nat ->
  GANExecutor.get_discriminator_inputs
    (mkGANContext model (Some encoder)) x condition training
  = Ok (TensorList [x; encoder x training]).
Proof.
  intros H2. unfold GANExecutor.get_discriminator_inputs. simpl.
  rewrite H2. reflexivity.
Qed.

Lemma inputs_plain_two (model : Model) (x condition : tensor) (training : bool) :
  len (inputs model) = 2%nat ->
  GANExecutor.get_discriminator_inputs
    (mkGANContext model None) x condition training
  = Ok (TensorList [x; condition]).
Proof.
  intros H2. unfold GANExecutor.get_discriminator_inputs. simpl.
  rewrite H2. reflexivity.
Qed.

(** X2.  For a discriminator declaring two inputs and a context with an
    encoder, the encoding takes the place of the condition: the generator
    loss is that of the context without encoder called with the encoding
    as condition, and the generator, discriminator and feature matching
    losses do not depend on the condition passed. *)
Theorem encoder_replaces_condition
  (_fn : loss_fn) (model : Model) (encoder : tensor -> bool -> tensor)
  (fake real condition : tensor) (training : bool) :
  len (inputs model) = 2%nat ->
  let with_encoder := mkGANContext model (Some encoder) in
  let without_encoder := mkGANContext model None in
  AdversarialLossG.call _fn with_encoder fake condition training
  = AdversarialLossG.call _fn without_encoder fake (encoder fake training) training
  /\ (forall condition' : tensor,
        AdversarialLossG.call _fn with_encoder fake condition' training
        = AdversarialLossG.call _fn with_encoder fake condition training
        /\ AdversarialLossD.call _fn with_encoder fake real condition' training
           = AdversarialLossD.call _fn with_encoder fake real condition training
        /\ FeatureMatching.call _fn with_encoder fake real condition' training
           = FeatureMatching.call _fn with_encoder fake real condition training).
Proof.
  intros H2 with_encoder without_encoder.
  subst with_encoder without_encoder.
  unfold AdversarialLossG.call, AdversarialLossD.call, FeatureMatching.call.
  split.
  - rewrite (inputs_encoder_two _ _ _ _ _ H2), (inputs_plain_two _ _ _ _ H2).
    reflexivity.
  - intros condition'.
    rewrite !(inputs_encoder_two _ _ _ _ _ H2).
    repeat split.
Qed.

(** X3.  With an encoder and a discriminator that declares neither two
    nor three inputs, the generator, discriminator and feature matching
    losses all raise the [ValueError] of [get_discriminator_inputs],
    whatever the discriminator and the loss function would compute. *)
Theorem losses_raise_on_arity
  (_fn : loss_fn) (context : GANContext) (encoder : tensor -> bool -> tensor)
  (fake real condition : tensor) (training : bool) :
  encoder_model context = Some encoder ->
  let num_inputs := len (inputs (discriminator_model context)) in
  num_inputs <> 2%nat ->
  num_inputs <> 3%nat ->
  let error :=
    ValueError ("Context has encoder_model, but generator has only "
                  ++ str_of_len num_inputs ++ " inputs")%string in
  AdversarialLossG.call _fn context fake condition training = Raise error
  /\ AdversarialLossD.call _fn context fake real condition training = Raise error
  /\ FeatureMatching.call _fn context fake real condition training = Raise error.
Proof.
  intros Henc num_inputs H2 H3 error.
  assert (Hraise : forall x,
    GANExecutor.get_discriminator_inputs context x condition training
    = Raise error).
  { intros x. unfold GANExecutor.get_discriminator_inputs.
    rewrite Henc. fold num_inputs.
    apply Nat.eqb_neq in H2, H3. rewrite H2, H3. reflexivity. }
  unfold AdversarialLossG.call, AdversarialLossD.call, FeatureMatching.call.
  rewrite !Hraise. repeat split.
Qed.

Lemma mapM_pairs {A B} (f : A -> A -> result B) (ps : list (A * A))
  (vs : list B) :
  Forall2 (fun p v => f (fst p) (snd p) = Ok v) ps vs ->
  mapM (fun '(a, b) => f a b) ps = Ok vs.
Proof.
  induction 1 as [|[a b] v ps vs Hp _ IH]; simpl.
  - reflexivity.
  - simpl in Hp. rewrite Hp. simpl. rewrite IH. reflexivity.
Qed.

(** X4.  [FeatureMatchingLoss.call] returns the sum of the loss function
    applied to the features of the real and of the fake input, paired in
    order; when the two feature lists differ in length the surplus
    features of the longer one are ignored. *)
Theorem FeatureMatching_call_value
  (_fn : loss_fn) (context : GANContext)
  (fake real condition : tensor) (training : bool)
  (fake_inputs real_inputs : discriminator_inputs)
  (out_fake out_real : model_output)
  (features_fake features_real losses : list tensor) :
  GANExecutor.get_discriminator_inputs context fake condition training
  = Ok fake_inputs ->
  GANExecutor.get_discriminator_inputs context real condition training
  = Ok real_inputs ->
  model_call (discriminator_model context) fake_inputs training true
  = Ok (out_fake, features_fake) ->
  model_call (discriminator_model context) real_inputs training true
  = Ok (out_real, features_real) ->
  Forall2 (fun p v => _fn (fst p) (snd p) = Ok v)
    (combine features_real features_fake) losses ->
  FeatureMatching.call _fn context fake real condition training
  = Ok (add_n losses)
  /\ len losses = Nat.min (len features_real) (len features_fake).
Proof.
  intros Hfi Hri Hf Hr Hl. split.
  - unfold FeatureMatching.call. rewrite Hfi, Hri. simpl.
    rewrite Hf. simpl. rewrite Hr. simpl.
    rewrite (mapM_pairs _fn _ _ Hl). reflexivity.
  - unfold len. rewrite <- (Forall2_length Hl), length_combine. reflexivity.
Qed.

(** X5.  [EncoderBCE.call] fails with [AttributeError] exactly when the
    context has no encoder.  Otherwise it hands the discriminator
    [[real, encoder(real)]] whatever number of inputs the discriminator
    declares, which is what [get_discriminator_inputs] builds for a
    discriminator declaring two inputs. *)
Theorem EncoderBCE_call_inputs
  (_fn : loss_fn) (context : GANContext) (real : tensor) (training : bool) :
  (encoder_model context = None
   <-> EncoderBCELoss.call _fn context real training
       = AttributeError "encoder_model")
  /\ (forall encoder : tensor -> bool -> tensor,
        encoder_model context = Some encoder ->
        let d_inputs := TensorList [real; encoder real training] in
        EncoderBCELoss.call _fn context real training
        = Found (d_real <- model_call (discriminator_model context)
                             d_inputs training false ;;
                 _fn (zeros_like (as_tensor d_real)) (as_tensor d_real))
        /\ (len (inputs (discriminator_model context)) = 2%nat ->
            forall condition : tensor,
              GANExecutor.get_discriminator_inputs context real condition training
              = Ok d_inputs)).
Proof.
  unfold EncoderBCELoss.call. split.
  - destruct (encoder_model context); split; intros H;
      try reflexivity; discriminate H.
  - intros encoder Henc. cbv zeta. rewrite Henc. split; [reflexivity|].
    intros H2 condition.
    unfold GANExecutor.get_discriminator_inputs. rewrite Henc, H2. reflexivity.
Qed.

End ExecutorInputs.

(** ** Losses over the discriminators of the repository *)

Section LossesOverDiscriminators.
Context {TF : TensorFlow} {Base : PatchDiscriminator.BaseEncoder}.

Import MultiScaleDiscriminator.







(** X7.  Against a freshly built multi-scale discriminator and without an
    encoder, the feature matching loss is the sum of the loss function
    over the features of all scales, in the order of the scales, each
    feature of the real input paired with the feature of the fake input
    at the same position. *)
Theorem feature_matching_over_multiscale
  (_fn : loss_fn)
  (input_res min_res kernel_size initial_filters filters_cap : Z)
  (use_dropout : bool) (dropout_prob : float)
  (non_linearity normalization_layer : layer_class) (use_attention : bool)
  (n_discriminators : Z) (fake real condition : tensor) (training : bool)
  (losses : list tensor) :
  let self :=
    __init__ input_res min_res kernel_size initial_filters filters_cap
      use_dropout dropout_prob non_linearity normalization_layer
      use_attention n_discriminators in
  let context := mkGANContext (as_model self) None in
  let features (x : tensor) : list tensor :=
    List.concat
      (map (fun '(i, d) =>
              snd (PatchDiscriminator.call d
                     (TensorList [Nat.iter i AvgPool2D x;
                                  Nat.iter i AvgPool2D condition])
                     training true))
           (enumerate (discriminators self))) in
  Forall2 (fun p v => _fn (fst p) (snd p) = Ok v)
    (combine (features real) (features fake)) losses ->
  FeatureMatching.call _fn context fake real condition training
  = Ok (add_n losses).
Proof.
  intros self context features HL.
  assert (Hinputs : forall x,
    GANExecutor.get_discriminator_inputs context x condition training
    = Ok (TensorList [x; condition])).
  { intros x. apply inputs_plain_two. reflexivity. }
  assert (Hcall : forall x,
    model_call (discriminator_model context) (TensorList [x; condition])
      training true
    = Ok (TensorList
            (map fst (pyramid training (discriminators self) x condition)),
          features x)).
  { intros x. subst features. cbv beta.
    rewrite <- (pyramid_features training (discriminators self) x condition 0).
    exact (proj1 (call_pyramid self x condition training)). }
  clearbody context features.
  unfold FeatureMatching.call. rewrite !Hinputs. simpl bind.
  rewrite !Hcall. simpl bind.
  rewrite (mapM_pairs _fn _ _ HL). reflexivity.
Qed.

(** X8.  Against a freshly built [PatchDiscriminator] and without an
    encoder, the discriminator runs on the concatenation of the image and
    the condition, in this order, and returns one tensor: the adversarial
    losses take the single-tensor path, where the loss value gets two
    trailing axes unless the discriminator output has rank 4. *)
Theorem adversarial_losses_over_patch
  (_fn : loss_fn)
  (input_res min_res kernel_size initial_filters filters_cap : Z)
  (use_dropout : bool) (dropout_prob : float)
  (non_linearity normalization_layer : layer_class) (use_attention : bool)
  (fake real condition : tensor) (training : bool)
  (generator_loss discriminator_loss : tensor) :
  let self :=
    PatchDiscriminator.__init__ input_res min_res kernel_size initial_filters
      filters_cap use_dropout dropout_prob non_linearity normalization_layer
      use_attention in
  let context := mkGANContext (PatchDiscriminator.as_model self) None in
  let D (x : tensor) : tensor :=
    PatchDiscriminator.super_call self
      (Concatenate (TensorList [x; condition])) training false in
  let widened (v : tensor) : tensor :=
    if rank (D fake) =? 4 then v
    else expand_dims (expand_dims v (-1)) (-1) in
  _fn (ones_like (D fake)) (D fake) = Ok generator_loss ->
  _fn (D real) (D fake) = Ok discriminator_loss ->
  AdversarialLossG.call _fn context fake condition training
  = Ok (reduce_mean (widened generator_loss) (Some [1; 2]))
  /\ AdversarialLossD.call _fn context fake real condition training
     = Ok (reduce_mean (widened discriminator_loss) (Some [1; 2])).
Proof.
  intros self context D widened HG HD.
  assert (Hinputs : forall x,
    GANExecutor.get_discriminator_inputs context x condition training
    = Ok (TensorList [x; condition])).
  { intros x. apply inputs_plain_two. reflexivity. }
  assert (Hcall : forall x,
    model_call (discriminator_model context) (TensorList [x; condition])
      training false
    = Ok (OneTensor (D x))).
  { intros x. reflexivity. }
  clearbody context D. subst widened.
  split.
  - unfold AdversarialLossG.call. rewrite Hinputs. simpl bind.
    rewrite Hcall. simpl bind. rewrite HG. reflexivity.
  - unfold AdversarialLossD.call. rewrite !Hinputs. simpl bind.
    rewrite !Hcall. simpl bind. simpl as_tensor. rewrite HD. reflexivity.
Qed.


End LossesOverDiscriminators.

(** ** Scales of the multi-scale discriminator *)

Section Scales.
Context {TF : TensorFlow} {Base : PatchDiscriminator.BaseEncoder}.

Import MultiScaleDiscriminator.





End Scales.

(** ** The least-squares loss object *)

Section LeastSquares.
Context {TF : TensorFlow} {MSE : KerasMeanSquaredError}.

Lemma LeastSquareLoss_reductions_agree (values : list Reduction) :
  forall self : LeastSquareLoss.t,
    LeastSquareLoss._negative_mse self = LeastSquareLoss._positive_mse self ->
    let self' := fold_left LeastSquareLoss.set_reduction values self in
    LeastSquareLoss._negative_mse self' = LeastSquareLoss._positive_mse self'.
Proof.
  induction values as [|value values IH]; intros self Hagree; simpl.
  - exact Hagree.
  - apply IH. reflexivity.
Qed.

(** X12.  [LeastSquareLoss.call] returns 0.5 times the sum of the mean
    squared error of [d_real] against ones and that of [d_fake] against
    zeros, both computed with the reduction that the [reduction] property
    reports, whatever was assigned to it after construction. *)
Theorem LeastSquareLoss_call_value
  (reductions : list Reduction) (d_real d_fake : tensor) :
  let self :=
    fold_left LeastSquareLoss.set_reduction reductions
      LeastSquareLoss.__init__ in
  let r := LeastSquareLoss.get_reduction self in
  LeastSquareLoss.call self d_real d_fake
  = tf_scale 0.5%float
      (tf_add (mean_squared_error r (ones_like d_real) d_real)
              (mean_squared_error r (zeros_like d_fake) d_fake))
  /\ LeastSquareLoss._negative_mse self = r.
Proof.
  intros self r.
  assert (Hagree : LeastSquareLoss._negative_mse self = r).
  { apply (LeastSquareLoss_reductions_agree reductions
             LeastSquareLoss.__init__ eq_refl). }
  split.
  - unfold LeastSquareLoss.call. rewrite Hagree. reflexivity.
  - exact Hagree.
Qed.

End LeastSquares.

(** ** The layers of a patch discriminator *)

Section Layers.
Context {TF : TensorFlow}.

Import PatchLayers.

Lemma append_layers (st : state) (l : layer) :
  model_layers (append st l) = (model_layers st ++ [l])%list
  /\ layer_count (append st l) = layer_count st.
Proof. split; reflexivity. Qed.

(** One building block appends [block_layers] and counts one block. *)
Lemma building_block_step (self : PatchDiscriminator.t) (st : state)
  (filters : Z) (use_bn : bool) :
  let first :=
    match model_layers st with
    | [] => true
    | _ :: _ => false
    end in
  model_layers (_add_building_block self st filters use_bn)
  = (model_layers st ++ block_layers self first (layer_count st) filters)%list
  /\ layer_count (_add_building_block self st filters use_bn)
     = layer_count st + 1.
Proof.
  intros first. subst first.
  unfold _add_building_block, block_layers, append.
  destruct st as [layers count]. cbn [model_layers layer_count].
  assert (Hlen :
    (1 <? len (layers ++ [Conv2D filters (PatchDiscriminator.kernel_size self)
                            (Strides 2 2) "same" initializer_0_002 true]))%nat
    = match layers with [] => false | _ :: _ => true end).
  { unfold len. rewrite length_app. destruct layers as [|l layers]; simpl.
    - reflexivity.
    - apply Nat.ltb_lt. lia. }
  rewrite Hlen.
  destruct layers as [|l layers];
    destruct (PatchDiscriminator.use_dropout self);
    cbn [model_layers layer_count];
    destruct (count =? 2);
    destruct (PatchDiscriminator.use_attention self);
    cbn [model_layers layer_count andb app];
    repeat rewrite <- app_assoc; split; reflexivity.
Qed.

Lemma final_block_step (self : PatchDiscriminator.t) (st : state)
  (output_shape : option (list Z)) :
  model_layers (_add_final_block self st output_shape)
  = (model_layers st ++ final_layers self)%list
  /\ layer_count (_add_final_block self st output_shape) = layer_count st.
Proof.
  unfold _add_final_block, final_layers, append. cbn [model_layers layer_count].
  repeat rewrite <- app_assoc. split; reflexivity.
Qed.

(** X13.  Whatever sequence of [_add_building_block] and
    [_add_final_block] calls is made, the layers present before remain, in
    order, at the front of [model_layers], and [layer_count] grows by the
    number of building blocks; a sequence that ends with the final block
    ends with the one-filter convolution of stride 1, whatever
    [output_shape] is. *)
Theorem layers_only_grow (self : PatchDiscriminator.t) (st : state)
  (calls : list method_call) :
  let st' := run_calls self st calls in
  (exists added : list layer,
      model_layers st' = (model_layers st ++ added)%list)
  /\ layer_count st' = layer_count st + Z.of_nat (len (block_filters calls))
  /\ (forall output_shape : option (list Z),
        let final := run_calls self st (calls ++ [AddFinalBlock output_shape]) in
        model_layers final = (model_layers st' ++ final_layers self)%list
        /\ last (model_layers final) ZeroPadding2D
           = Conv2D 1 (PatchDiscriminator.kernel_size self) (Stride 1) "valid"
               initializer_0_002 true).
Proof.
  intros st'. subst st'. unfold run_calls. split; [|split].
  - revert st. induction calls as [|c calls IH]; intros st; cbn [fold_left].
    + exists []. rewrite app_nil_r. reflexivity.
    + destruct (IH (run_call self st c)) as [added Hadded].
      rewrite Hadded.
      destruct c as [filters use_bn|output_shape]; cbn [run_call].
      * rewrite (proj1 (building_block_step self st filters use_bn)).
        rewrite <- app_assoc. eexists. reflexivity.
      * rewrite (proj1 (final_block_step self st output_shape)).
        rewrite <- app_assoc. eexists. reflexivity.
  - revert st. induction calls as [|c calls IH]; intros st;
      cbn [fold_left block_filters].
    + unfold len. simpl. lia.
    + rewrite IH.
      destruct c as [filters use_bn|output_shape]; cbn [run_call block_filters].
      * rewrite (proj2 (building_block_step self st filters use_bn)).
        unfold len. cbn [List.length]. lia.
      * rewrite (proj2 (final_block_step self st output_shape)). reflexivity.
  - intros output_shape. cbv zeta.
    rewrite fold_left_app. cbn [fold_left run_call].
    rewrite (proj1 (final_block_step self _ output_shape)).
    split; [reflexivity|].
    unfold final_layers.
    change [ZeroPadding2D;
            Conv2D 512 (PatchDiscriminator.kernel_size self) (Stride 1) "valid"
              initializer_0_002 false;
            LayerOf (PatchDiscriminator.normalization_layer self);
            LayerOf (PatchDiscriminator.non_linearity self);
            ZeroPadding2D;
            Conv2D 1 (PatchDiscriminator.kernel_size self) (Stride 1) "valid"
              initializer_0_002 true]
      with ([ZeroPadding2D;
             Conv2D 512 (PatchDiscriminator.kernel_size self) (Stride 1) "valid"
               initializer_0_002 false;
             LayerOf (PatchDiscriminator.normalization_layer self);
             LayerOf (PatchDiscriminator.non_linearity self);
             ZeroPadding2D]
            ++ [Conv2D 1 (PatchDiscriminator.kernel_size self) (Stride 1) "valid"
                  initializer_0_002 true])%list.
    rewrite app_assoc. apply last_last.
Qed.


Lemma block_layers_attention (self : PatchDiscriminator.t) (first : bool)
  (count filters : Z) :
  filter is_attention (block_layers self first count filters)
  = if (count =? 2) && PatchDiscriminator.use_attention self
    then [Attention filters] else [].
Proof.
  unfold block_layers.
  destruct first; destruct (PatchDiscriminator.use_dropout self);
    destruct ((count =? 2) && PatchDiscriminator.use_attention self);
    reflexivity.
Qed.


(** The attention layers of a run that starts with [layer_count = k]. *)
Lemma attention_from (self : PatchDiscriminator.t) (calls : list method_call) :
  forall (st : state) (k : nat),
    layer_count st = Z.of_nat k ->
    filter is_attention (model_layers (run_calls self st calls))
    = (filter is_attention (model_layers st)
       ++ (if (k <=? 2)%nat
           then match nth_error (block_filters calls) (2 - k) with
                | Some filters =>
                    if PatchDiscriminator.use_attention self
                    then [Attention filters] else []
                | None => []
                end
           else []))%list.
Proof.
  unfold run_calls.
  induction calls as [|c calls IH]; intros st k Hk;
    cbn [fold_left block_filters].
  - destruct (k <=? 2)%nat; [destruct (2 - k)%nat|];
      cbn [nth_error]; rewrite app_nil_r; reflexivity.
  - destruct c as [filters use_bn|output_shape]; cbn [run_call block_filters].
    + destruct (building_block_step self st filters use_bn) as [Hl Hc].
      cbv zeta in Hl.
      rewrite (IH _ (S k)) by (rewrite Hc, Hk; lia).
      rewrite Hl, filter_app, block_layers_attention, Hk, <- app_assoc.
      f_equal.
      destruct k as [|[|[|k]]]; cbn [Nat.leb Nat.sub nth_error].
      * reflexivity.
      * reflexivity.
      * change (Z.of_nat 2 =? 2) with true. cbn [andb].
        destruct (PatchDiscriminator.use_attention self); reflexivity.
      * replace (Z.of_nat (S (S (S k))) =? 2) with false
          by (symmetry; apply Z.eqb_neq; lia).
        reflexivity.
    + destruct (final_block_step self st output_shape) as [Hl Hc].
      rewrite (IH _ k) by (rewrite Hc; exact Hk).
      rewrite Hl, filter_app. cbn [final_layers filter is_attention].
      rewrite app_nil_r. reflexivity.
Qed.

(** X14.  Starting from [layer_count = 0] and no attention layer, the
    layer list holds an attention layer only if [use_attention] is set and
    at least three building blocks were added; it is then the single one,
    added by the third building block with that block's [filters]. *)
Theorem attention_with_third_block (self : PatchDiscriminator.t)
  (st : state) (calls : list method_call) :
  layer_count st = 0 ->
  filter is_attention (model_layers st) = [] ->
  filter is_attention (model_layers (run_calls self st calls))
  = match nth_error (block_filters calls) 2 with
    | Some filters =>
        if PatchDiscriminator.use_attention self
        then [Attention filters] else []
    | None => []
    end.
Proof.
  intros Hcount Hnone.
  rewrite (attention_from self calls st 0 Hcount), Hnone. reflexivity.
Qed.



End Layers.

(** ** Losses that do not consult the discriminator *)

Section ContextFreeLosses.
Context {TF : TensorFlow}.

(** [GeneratorL1.call] and [CategoricalCrossEntropy.call] never read the
    context: they return the same value under any two contexts, also under
    one on which the losses built on [get_discriminator_inputs] raise. *)
Lemma losses_without_context (_fn : loss_fn) (context context' : GANContext)
  (fake real : tensor) :
  GeneratorL1Loss.call _fn context fake real
  = GeneratorL1Loss.call _fn context' fake real
  /\ CategoricalCrossEntropyLoss.call _fn context fake real
     = CategoricalCrossEntropyLoss.call _fn context' fake real.
Proof. split; reflexivity. Qed.

End ContextFreeLosses.

(** ** Failure of the composite losses *)

(** X16.  [Pix2PixLoss] and [Pix2PixLossSemantic] raise the [ValueError]
    of [get_adversarial_loss_generator] exactly for a loss type that is
    neither [GAN], 0, [LSGAN] nor 1, and are built for every other loss
    type, whatever the weights and the feature matching flag are. *)
Theorem Pix2PixLoss_loss_type {weight : Type}
  (first_weight adversarial_loss_weight feature_matching_weight : weight)
  (adversarial_loss_type : py_value) (use_feature_matching_loss : bool) :
  let supported :=
    (py_eq adversarial_loss_type (PyEnum GAN)
     || py_eq adversarial_loss_type (PyInt 0))
    || (py_eq adversarial_loss_type (PyEnum LSGAN)
        || py_eq adversarial_loss_type (PyInt 1)) in
  let pix2pix :=
    Pix2PixLoss first_weight adversarial_loss_weight feature_matching_weight
      adversarial_loss_type use_feature_matching_loss in
  let semantic :=
    Pix2PixLossSemantic first_weight adversarial_loss_weight
      feature_matching_weight adversarial_loss_type use_feature_matching_loss in
  (supported = false ->
     pix2pix = Raise unsupported_loss_type
     /\ semantic = Raise unsupported_loss_type)
  /\ (supported = true ->
      exists executors executors' : list (Executor weight),
        pix2pix = Ok (SumExecutor executors)
        /\ semantic = Ok (SumExecutor executors')).
Proof.
  intros supported pix2pix semantic.
  subst supported pix2pix semantic.
  unfold Pix2PixLoss, Pix2PixLossSemantic, get_adversarial_loss_generator.
  change (value GAN) with 0. change (value LSGAN) with 1.
  destruct (py_eq adversarial_loss_type (PyEnum GAN)
            || py_eq adversarial_loss_type (PyInt 0));
    [|destruct (py_eq adversarial_loss_type (PyEnum LSGAN)
                || py_eq adversarial_loss_type (PyInt 1))];
    cbn [orb bind]; split; intros H; try discriminate H;
    try (split; reflexivity);
    eexists; eexists; split; reflexivity.
Qed.

(** ** The further properties at concrete inputs *)

Lemma encoder_replaces_condition_witness :
  @AdversarialLossG.call Symbolic.TF Symbolic.loss
    (@mkGANContext Symbolic.TF (Symbolic.plain_model 2 4) (Some Symbolic.encoder))
    Symbolic.fake Symbolic.condition true
  = @AdversarialLossG.call Symbolic.TF Symbolic.loss
      (@mkGANContext Symbolic.TF (Symbolic.plain_model 2 4) None)
      Symbolic.fake (Symbolic.encoder Symbolic.fake true) true.
Proof.
  exact (proj1 (@encoder_replaces_condition Symbolic.TF Symbolic.loss
                  (Symbolic.plain_model 2 4) Symbolic.encoder
                  Symbolic.fake Symbolic.real Symbolic.condition true eq_refl)).
Defined.

Lemma losses_raise_on_arity_witness :
  @FeatureMatching.call Symbolic.TF Symbolic.loss
    (Symbolic.context 1 4 (Some Symbolic.encoder))
    Symbolic.fake Symbolic.real Symbolic.condition true
  = Raise (ValueError
             "Context has encoder_model, but generator has only 1 inputs").
Proof.
  refine (proj2 (proj2
    (@losses_raise_on_arity Symbolic.TF Symbolic.loss
       (Symbolic.context 1 4 (Some Symbolic.encoder)) Symbolic.encoder
       Symbolic.fake Symbolic.real Symbolic.condition true eq_refl _ _)));
    vm_compute; discriminate.
Defined.

Lemma FeatureMatching_call_value_witness :
  @FeatureMatching.call Symbolic.TF Symbolic.loss
    (@mkGANContext Symbolic.TF
       (@MultiScaleDiscriminator.as_model Symbolic.TF Symbolic.Base
          (Symbolic.multiscale 1)) None)
    Symbolic.fake Symbolic.real Symbolic.condition true
  = Ok (Symbolic.Op "add_n"
          [Symbolic.Op "loss"
             [Symbolic.Op "feature"
                [Symbolic.Op "D"
                   [Symbolic.Sym "res" 256;
                    Symbolic.Op "Concatenate"
                      [Symbolic.real; Symbolic.condition]]];
              Symbolic.Op "feature"
                [Symbolic.Op "D"
                   [Symbolic.Sym "res" 256;
                    Symbolic.Op "Concatenate"
                      [Symbolic.fake; Symbolic.condition]]]]]).
Proof.
  refine (proj1
    (@FeatureMatching_call_value Symbolic.TF Symbolic.loss
       (@mkGANContext Symbolic.TF
          (@MultiScaleDiscriminator.as_model Symbolic.TF Symbolic.Base
             (Symbolic.multiscale 1)) None)
       Symbolic.fake Symbolic.real Symbolic.condition true
       _ _ _ _ _ _ [_] eq_refl eq_refl eq_refl eq_refl _)).
  repeat constructor.
Defined.


Lemma feature_matching_over_multiscale_witness :
  @FeatureMatching.call Symbolic.TF Symbolic.loss
    (@mkGANContext Symbolic.TF
       (@MultiScaleDiscriminator.as_model Symbolic.TF Symbolic.Base
          (Symbolic.multiscale 2)) None)
    Symbolic.fake Symbolic.real Symbolic.condition true
  = Ok (Symbolic.Op "add_n"
          [Symbolic.Op "loss"
             [Symbolic.Op "feature"
                [Symbolic.Op "D"
                   [Symbolic.Sym "res" 256;
                    Symbolic.Op "Concatenate"
                      [Symbolic.real; Symbolic.condition]]];
              Symbolic.Op "feature"
                [Symbolic.Op "D"
                   [Symbolic.Sym "res" 256;
                    Symbolic.Op "Concatenate"
                      [Symbolic.fake; Symbolic.condition]]]];
           Symbolic.Op "loss"
             [Symbolic.Op "feature"
                [Symbolic.Op "D"
                   [Symbolic.Sym "res" 128;
                    Symbolic.Op "Concatenate"
                      [Symbolic.Op "AvgPool2D" [Symbolic.real];
                       Symbolic.Op "AvgPool2D" [Symbolic.condition]]]];
              Symbolic.Op "feature"
                [Symbolic.Op "D"
                   [Symbolic.Sym "res" 128;
                    Symbolic.Op "Concatenate"
                      [Symbolic.Op "AvgPool2D" [Symbolic.fake];
                       Symbolic.Op "AvgPool2D" [Symbolic.condition]]]]]]).
Proof.
  refine (@feature_matching_over_multiscale Symbolic.TF Symbolic.Base
            Symbolic.loss 256 16 4 64 512 true 0.25%float "LeakyReLU"
            "InstanceNormalization" false 2
            Symbolic.fake Symbolic.real Symbolic.condition true [_; _] _).
  repeat constructor.
Defined.

Lemma adversarial_losses_over_patch_witness :
  @AdversarialLossG.call Symbolic.TF Symbolic.loss
    (@mkGANContext Symbolic.TF
       (@PatchDiscriminator.as_model Symbolic.TF Symbolic.Base
          (Symbolic.patch_discriminator 256)) None)
    Symbolic.fake Symbolic.condition true
  = Ok (Symbolic.AxisOp "reduce_mean" (Some [1; 2])
          (Symbolic.AxisOp "expand_dims" (Some [-1])
             (Symbolic.AxisOp "expand_dims" (Some [-1])
                (Symbolic.Op "loss"
                   [Symbolic.Op "ones_like"
                      [Symbolic.Op "D"
                         [Symbolic.Sym "res" 256;
                          Symbolic.Op "Concatenate"
                            [Symbolic.fake; Symbolic.condition]]];
                    Symbolic.Op "D"
                      [Symbolic.Sym "res" 256;
                       Symbolic.Op "Concatenate"
                         [Symbolic.fake; Symbolic.condition]]])))).
Proof.
  exact (proj1
    (@adversarial_losses_over_patch Symbolic.TF Symbolic.Base Symbolic.loss
       256 16 4 64 512 true 0.25%float "LeakyReLU" "InstanceNormalization"
       false Symbolic.fake Symbolic.real Symbolic.condition true
       _ _ eq_refl eq_refl)).
Defined.



Lemma attention_with_third_block_witness :
  filter (@PatchLayers.is_attention Symbolic.TF)
    (@PatchLayers.model_layers Symbolic.TF
       (@PatchLayers.run_calls Symbolic.TF
          (@PatchDiscriminator.__init__ Symbolic.TF
             256 16 4 64 512 true 0.25%float "LeakyReLU"
             "InstanceNormalization" true)
          (@PatchLayers.mk_state Symbolic.TF [] 0)
          [PatchLayers.AddBuildingBlock 64 false;
           PatchLayers.AddBuildingBlock 128 false;
           PatchLayers.AddBuildingBlock 256 false;
           PatchLayers.AddBuildingBlock 512 false;
           PatchLayers.AddFinalBlock None]))
  = [@PatchLayers.Attention Symbolic.TF 256].
Proof.
  exact (@attention_with_third_block Symbolic.TF
           (@PatchDiscriminator.__init__ Symbolic.TF
              256 16 4 64 512 true 0.25%float "LeakyReLU"
              "InstanceNormalization" true)
           (@PatchLayers.mk_state Symbolic.TF [] 0)
           [PatchLayers.AddBuildingBlock 64 false;
            PatchLayers.AddBuildingBlock 128 false;
            PatchLayers.AddBuildingBlock 256 false;
            PatchLayers.AddBuildingBlock 512 false;
            PatchLayers.AddFinalBlock None]
           eq_refl eq_refl).
Defined.

